(** * GoodmemClient: a shallow embedding of [goodmem_adk/client.py]

    The client is a thin wrapper over an HTTP library.  Values that come
    back from the service are dynamically typed (whatever [json.loads]
    produces), so they are modelled by the type [json] below together with
    the Python operations the client applies to them ([.get], [in],
    truthiness, iteration, indexing), each with the exception Python raises
    when the value has the wrong shape.

    Effects are explicit: a [world] records every request handed to the
    HTTP library and every line printed in debug mode; the service, the
    process environment and the JSON codec are the fields of a [host]. *)

From Stdlib Require Import ZArith List String Ascii Bool Lia.
From Stdlib Require Import Floats.SpecFloat.
Import ListNotations.

Open Scope string_scope.
Open Scope list_scope.
Open Scope Z_scope.

Set Warnings "-register-all".

(* ------------------------------------------------------------------ *)
(** ** Python values as produced by [json.loads] *)

(** [None]/[null], [bool], [int], [float], [str], [list] and [dict] with
    string keys in insertion order. *)
Inductive json : Type :=
| JNull
| JBool (b : bool)
| JInt (n : Z)
| JFloat (f : spec_float)
| JStr (s : string)
| JArr (items : list json)
| JObj (fields : list (string * json)).

Definition dict : Type := list (string * json).

(** [d.get(k)] on a [dict]: the first binding of [k]. *)
Fixpoint dict_get (d : dict) (k : string) : option json :=
  match d with
  | [] => None
  | (k', v) :: rest => if String.eqb k k' then Some v else dict_get rest k
  end.

(** [k in d]. *)
Definition dict_mem (d : dict) (k : string) : bool :=
  match dict_get d k with Some _ => true | None => false end.

(** [d[k] = v]: an existing key keeps its position, a new key goes last. *)
Fixpoint dict_set (d : dict) (k : string) (v : json) : dict :=
  match d with
  | [] => [(k, v)]
  | (k', v') :: rest =>
      if String.eqb k k' then (k, v) :: rest else (k', v') :: dict_set rest k v
  end.

(** [{**d, k: v}] is [dict_set] on a copy; the embedding has no aliasing
    to distinguish the two. *)

(** Truth value of a Python object ([if x:], [not x], [x or y]). *)
Definition py_truthy (v : json) : bool :=
  match v with
  | JNull => false
  | JBool b => b
  | JInt n => negb (n =? 0)
  | JFloat (S754_zero _) => false
  | JFloat _ => true
  | JStr s => negb (String.eqb s "")
  | JArr l => match l with [] => false | _ => true end
  | JObj d => match d with [] => false | _ => true end
  end.

(** [s == v] for a [str] [s]: only an equal [str] compares equal. *)
Definition py_eq_str (s : string) (v : json) : bool :=
  match v with
  | JStr t => String.eqb s t
  | _ => false
  end.

(** [s in l] for a Python list [l]. *)
Definition list_contains_str (s : string) (l : list json) : bool :=
  existsb (py_eq_str s) l.

(** [k in s] for two strings: substring test. *)
Definition is_substring (k s : string) : bool :=
  match String.index 0 k s with Some _ => true | None => false end.

(** The characters of a [str], as iteration yields them. *)
Fixpoint chars (s : string) : list json :=
  match s with
  | EmptyString => []
  | String c r => JStr (String c EmptyString) :: chars r
  end.

(* ------------------------------------------------------------------ *)
(** ** Strings

    A character of a Rocq string stands for the code point of the same
    number, so the strings of the model are the Python strings over code
    points below 256. *)

(** [str.isspace] on one character, restricted to code points below 256:
    TAB..CR, FS..US and SPACE, NEL (0x85) and NBSP (0xA0). *)
Definition py_isspace (c : ascii) : bool :=
  let n := N_of_ascii c in
  (((9 <=? n) && (n <=? 13)) || ((28 <=? n) && (n <=? 32))
   || (n =? 133) || (n =? 160))%N.

Fixpoint lstrip (s : string) : string :=
  match s with
  | EmptyString => EmptyString
  | String c r => if py_isspace c then lstrip r else s
  end.

Fixpoint rstrip (s : string) : string :=
  match s with
  | EmptyString => EmptyString
  | String c r =>
      match rstrip r with
      | EmptyString => if py_isspace c then EmptyString else String c EmptyString
      | r' => String c r'
      end
  end.

(** [s.strip()]. *)
Definition strip (s : string) : string := rstrip (lstrip s).

(** [s.rstrip(ch)] for a one-character argument. *)
Fixpoint rstrip_char (ch : ascii) (s : string) : string :=
  match s with
  | EmptyString => EmptyString
  | String c r =>
      match rstrip_char ch r with
      | EmptyString => if Ascii.eqb c ch then EmptyString else String c EmptyString
      | r' => String c r'
      end
  end.

(** [s.split(sep)] for a one-character separator: never empty, and
    [''.split(sep) == ['']]. *)
Fixpoint split_on (sep : ascii) (s : string) : list string :=
  match s with
  | EmptyString => [EmptyString]
  | String c r =>
      if Ascii.eqb c sep then EmptyString :: split_on sep r
      else match split_on sep r with
           | h :: t => String c h :: t
           | [] => [String c EmptyString]
           end
  end.

Definition newline : ascii := ascii_of_nat 10.
Definition slash : ascii := ascii_of_nat 47.

(** [urllib.parse.quote(s, safe='')]: letters, digits and [_.-~] are kept,
    every other character is UTF-8 encoded and each byte written [%XX]. *)
Definition is_unreserved (c : ascii) : bool :=
  let n := N_of_ascii c in
  (((48 <=? n) && (n <=? 57)) || ((65 <=? n) && (n <=? 90))
   || ((97 <=? n) && (n <=? 122))
   || (n =? 95) || (n =? 46) || (n =? 45) || (n =? 126))%N.

Definition hex_digit (n : N) : ascii :=
  if (n <? 10)%N then ascii_of_N (48 + n) else ascii_of_N (55 + n).

Definition percent_byte (b : N) : string :=
  String (ascii_of_nat 37)
    (String (hex_digit (N.div b 16)) (String (hex_digit (N.modulo b 16)) EmptyString)).

Definition quote_char (c : ascii) : string :=
  let n := N_of_ascii c in
  if is_unreserved c then String c EmptyString
  else if (n <? 128)%N then percent_byte n
  else String.append (percent_byte (192 + N.div n 64))
                     (percent_byte (128 + N.modulo n 64)).

Fixpoint quote (s : string) : string :=
  match s with
  | EmptyString => EmptyString
  | String c r => String.append (quote_char c) (quote r)
  end.

(* ------------------------------------------------------------------ *)
(** ** Requests, responses, exceptions *)

Inductive http_method : Type := GET | POST.

(** One part of [files=]: field name, then (file name, content, MIME type). *)
Definition file_part : Type := (string * (string * list Byte.byte * string))%type.

(** What a call hands over as the request body: nothing, [json=], or the
    multipart pair [data=]/[files=]. *)
Inductive payload : Type :=
| NoBody
| JsonBody (j : json)
| Multipart (data : list (string * string)) (files : list file_part).

(** The arguments of one [self._client.get/post] call.  The base URL and
    the default [x-api-key] header are fixed in the [httpx.Client] at
    construction and are not repeated in each request.  [req_timeout] is in
    seconds. *)
Record request : Type := mkRequest {
  req_method : http_method;
  req_url : string;
  req_params : option dict;
  req_body : payload;
  req_headers : option (list (string * string));
  req_timeout : Z
}.

Record response : Type := mkResponse {
  status_code : Z;
  text : string
}.

(** An f-string, kept as its pieces: literal text and interpolated values. *)
Inductive frag : Type :=
| Lit (s : string)
| Fmt (v : json).

Definition message : Type := list frag.

Inductive pyerr : Type :=
| HTTPStatusError (r : response)      (* httpx.HTTPStatusError, with its response *)
| RequestError (detail : string)      (* httpx.RequestError: connection, timeout *)
| JSONDecodeError (doc : string)
| ValueError (msg : message)
| TypeError (what : string)
| AttributeError (attr : string)
| KeyError
| IndexError
| RecursionError
| UnicodeEncodeError (what : string).

(** The result of running a piece of client code: a value, a raised
    exception, or the loop bound of the model was reached. *)
Inductive outcome (A : Type) : Type :=
| Return (a : A)
| Raise (e : pyerr)
| OutOfFuel.

Arguments Return {A} a.
Arguments Raise {A} e.
Arguments OutOfFuel {A}.

(** What [json.loads] does with a text: it returns the decoded value or
    it raises.  What it raises on a text that is not JSON is
    [JSONDecodeError]; it can also raise something else on a text that is
    JSON ([ValueError] for an integer beyond the digit limit,
    [RecursionError] for nesting beyond the recursion limit). *)
Inductive decoding : Type :=
| Decoded (v : json)
| Raised (e : pyerr).

(** What the client runs against.  [send] answers a request given the
    requests already made (so that a service may answer the same request
    differently over time); [inr] is a transport failure.  [json_loads]
    is [json.loads], which [response.json()] calls too; [json_dumps
    indent] is [json.dumps(value, indent=indent)] ([None] when it
    raises). *)
Record host : Type := mkHost {
  send : list request -> request -> response + string;
  getenv : string -> option string;
  json_loads : string -> decoding;
  json_dumps : option nat -> json -> option string
}.

Record world : Type := mkWorld {
  sent : list request;
  printed : list message
}.

Definition M (A : Type) : Type := world -> outcome A * world.

Definition ret {A} (a : A) : M A := fun w => (Return a, w).

Definition raise {A} (e : pyerr) : M A := fun w => (Raise e, w).

Definition out_of_fuel {A} : M A := fun w => (OutOfFuel, w).

Definition bind {A B} (c : M A) (k : A -> M B) : M B :=
  fun w =>
    match c w with
    | (Return a, w') => k a w'
    | (Raise e, w') => (Raise e, w')
    | (OutOfFuel, w') => (OutOfFuel, w')
    end.

Declare Scope client_scope.
Delimit Scope client_scope with client.
Notation "x <- c ;; k" := (bind c (fun x => k))
  (at level 100, c at next level, right associativity) : client_scope.
Notation "c ;; k" := (bind c (fun _ => k))
  (at level 100, right associativity) : client_scope.
Open Scope client_scope.

(** [print(...)]. *)
Definition print (m : message) : M unit :=
  fun w => (Return tt, mkWorld (sent w) (printed w ++ [m])).

(** [if debug: print(...)]. *)
Definition debug_print (debug : bool) (m : message) : M unit :=
  if debug then print m else ret tt.

(* ------------------------------------------------------------------ *)
(** ** Python operations on service data *)

(** [v.get(k, default)]: only a [dict] has the method. *)
Definition py_get (v : json) (k : string) (default : json) : M json :=
  match v with
  | JObj d => ret (match dict_get d k with Some x => x | None => default end)
  | _ => raise (AttributeError "get")
  end.

(** Iteration ([for e in v], [list.extend(v)]): a list yields its items, a
    [dict] its keys, a [str] its characters; anything else is not iterable. *)
Definition py_iter (v : json) : M (list json) :=
  match v with
  | JArr l => ret l
  | JObj d => ret (map (fun kv => JStr (fst kv)) d)
  | JStr s => ret (chars s)
  | _ => raise (TypeError "object is not iterable")
  end.

(** [v[0]]. *)
Definition py_first (v : json) : M json :=
  match v with
  | JArr (x :: _) => ret x
  | JArr [] => raise IndexError
  | JStr (String c _) => ret (JStr (String c EmptyString))
  | JStr EmptyString => raise IndexError
  | JObj _ => raise KeyError
  | _ => raise (TypeError "object is not subscriptable")
  end.

(** [k in v] for a [str] [k]. *)
Definition py_in (k : string) (v : json) : M bool :=
  match v with
  | JObj d => ret (dict_mem d k)
  | JArr l => ret (list_contains_str k l)
  | JStr s => ret (is_substring k s)
  | _ => raise (TypeError "argument is not iterable")
  end.


(** Truth value of an [Optional[str]]. *)
Definition str_truthy (o : option string) : bool :=
  match o with
  | Some s => negb (String.eqb s "")
  | None => false
  end.

(** [a or b] on two [Optional[str]]. *)
Definition str_or (a b : option string) : option string :=
  if str_truthy a then a else b.

(* ------------------------------------------------------------------ *)
(** ** The client *)

Record GoodmemClient : Type := mkClient {
  _base_url : string;
  _api_key : string;
  _headers : list (string * string);
  _debug : bool
}.

(** [GoodmemClient.__init__].  [httpx_Client base_url headers] stands for
    the construction [httpx.Client(base_url=..., headers=..., timeout=30.0)]
    that ends it: [None] when the library builds its client, the exception
    it raises otherwise (for one, [UnicodeEncodeError] on a header value
    that is not ASCII); that exception leaves no [GoodmemClient]. *)
Definition init (httpx_Client : string -> list (string * string) -> option pyerr)
    (base_url api_key : string) (debug : bool) : pyerr + GoodmemClient :=
  let base := rstrip_char slash base_url in
  let key := strip api_key in
  let headers := [("x-api-key", key)] in
  match httpx_Client base headers with
  | Some e => inl e
  | None => inr (mkClient base key headers debug)
  end.

(** [{**headers, k: v}] on a header dictionary. *)
Fixpoint headers_set (hs : list (string * string)) (k v : string)
  : list (string * string) :=
  match hs with
  | [] => [(k, v)]
  | (k', v') :: rest =>
      if String.eqb k k' then (k, v) :: rest else (k', v') :: headers_set rest k v
  end.

Definition nl : string := String newline EmptyString.

(** 1.0 as a binary64 value. *)
Definition float_one : spec_float := S754_finite false 4503599627370496 (-52).

(** Default Google embedder configuration (class attributes). *)
Definition _GOOGLE_EMBEDDER_DISPLAY_NAME : string := "gemini-embedding-001".
Definition _GOOGLE_EMBEDDER_PROVIDER_TYPE : string := "OPENAI".
Definition _GOOGLE_EMBEDDER_ENDPOINT_URL : string :=
  "https://generativelanguage.googleapis.com/v1beta/openai".
Definition _GOOGLE_EMBEDDER_MODEL_ID : string := "gemini-embedding-001".
Definition _GOOGLE_EMBEDDER_DIMENSIONALITY : Z := 1536.
Definition _GOOGLE_EMBEDDER_DISTRIBUTION_TYPE : string := "DENSE".

Section Client.

Variable h : host.
Variable self : GoodmemClient.

(** [self._client.get/post(...)]: the request is recorded, then answered by
    the service or failed by the transport. *)
Definition http (rq : request) : M response :=
  fun w =>
    let w' := mkWorld (sent w ++ [rq]) (printed w) in
    match send h (sent w) rq with
    | inl resp => (Return resp, w')
    | inr detail => (Raise (RequestError detail), w')
    end.

(** [httpx.Response.is_success]: a 2xx status. *)
Definition is_success (r : response) : bool :=
  (200 <=? status_code r) && (status_code r <=? 299).

(** [response.raise_for_status()]. *)
Definition raise_for_status (r : response) : M unit :=
  if is_success r then ret tt else raise (HTTPStatusError r).

(** [response.json()]. *)
Definition response_json (r : response) : M json :=
  match json_loads h (text r) with
  | Decoded v => ret v
  | Raised e => raise e
  end.


Definition get_space (space_id : string) : M json :=
  let encoded_space_id := quote space_id in
  let url := String.append "/v1/spaces/" encoded_space_id in
  response <- http (mkRequest GET url None NoBody None 30) ;;
  if status_code response =? 404 then ret JNull
  else
    raise_for_status response ;;
    response_json response.

(** [embedder_id] is whatever the caller resolved (the result of
    [ensure_embedder]); it goes into the payload as it is. *)
Definition create_space (space_name : string) (embedder_id : json)
    (space_id : option string) : M json :=
  let url := "/v1/spaces" in
  let payload : dict :=
    [ ("name", JStr space_name);
      ("spaceEmbedders",
        JArr [ JObj [ ("embedderId", embedder_id);
                      ("defaultRetrievalWeight", JFloat float_one) ] ]);
      ("defaultChunkingConfig",
        JObj [ ("recursive",
                 JObj [ ("chunkSize", JInt 512);
                        ("chunkOverlap", JInt 64);
                        ("keepStrategy", JStr "KEEP_END");
                        ("lengthMeasurement", JStr "CHARACTER_COUNT") ]) ]) ] in
  let payload :=
    match space_id with
    | Some sid => dict_set payload "spaceId" (JStr sid)
    | None => payload
    end in
  response <- http (mkRequest POST url None (JsonBody (JObj payload)) None 30) ;;
  raise_for_status response ;;
  response_json response.


(** [if metadata: d["metadata"] = metadata]. *)
Definition with_metadata (d : dict) (metadata : option dict) : dict :=
  match metadata with
  | Some ((_ :: _) as m) => dict_set d "metadata" (JObj m)
  | _ => d
  end.

Definition insert_memory (space_id content content_type : string)
    (metadata : option dict) : M json :=
  let url := "/v1/memories" in
  let payload : dict :=
    [ ("spaceId", JStr space_id);
      ("originalContent", JStr content);
      ("contentType", JStr content_type) ] in
  let payload := with_metadata payload metadata in
  response <- http (mkRequest POST url None (JsonBody (JObj payload)) None 30) ;;
  raise_for_status response ;;
  response_json response.


(** The body of the [for line in ...] loop of [retrieve_memories], over
    the remaining lines, with the chunks collected so far.  A line on
    which [json.loads] raises [JSONDecodeError] is skipped ([except
    json.JSONDecodeError: continue]); any other exception of [json.loads]
    and the exception of the membership test are not caught. *)
Fixpoint collect_chunks (lines : list string) (chunks : list json)
  : M (list json) :=
  match lines with
  | [] => ret chunks
  | line :: rest =>
      if negb (String.eqb (strip line) "") then
        match json_loads h line with
        | Decoded tmp_dict =>
            found <- py_in "retrievedItem" tmp_dict ;;
            if found then collect_chunks rest (chunks ++ [tmp_dict])
            else collect_chunks rest chunks
        | Raised (JSONDecodeError _) => collect_chunks rest chunks
        | Raised e => raise e
        end
      else collect_chunks rest chunks
  end.

Definition retrieve_memories (query : string) (space_ids : list string)
    (request_size : Z) : M (list json) :=
  let url := "/v1/memories:retrieve" in
  let headers := headers_set (_headers self) "Accept" "application/x-ndjson" in
  let payload : dict :=
    [ ("message", JStr query);
      ("spaceKeys", JArr (map (fun sid => JObj [("spaceId", JStr sid)]) space_ids));
      ("requestedSize", JInt request_size) ] in
  response <-
    http (mkRequest POST url None (JsonBody (JObj payload)) (Some headers) 30) ;;
  raise_for_status response ;;
  collect_chunks (split_on newline (strip (text response))) [].

(** The query parameters of one page request of [list_spaces]. *)
Definition page_params (name : option string) (next_token : json) : dict :=
  let params : dict := [("maxResults", JInt 1000)] in
  let params :=
    if py_truthy next_token then dict_set params "nextToken" next_token
    else params in
  match name with
  | Some n =>
      if negb (String.eqb n "") then dict_set params "nameFilter" (JStr n)
      else params
  | None => params
  end.

Definition page_request (name : option string) (next_token : json) : request :=
  mkRequest GET "/v1/spaces" (Some (page_params name next_token)) NoBody None 30.

(** The [while True] loop of [list_spaces]; [fuel] bounds the number of
    iterations of the model, the source has no bound. *)
Fixpoint list_spaces_loop (fuel : nat) (name : option string)
    (next_token : json) (all_spaces : list json) : M (list json) :=
  match fuel with
  | O => out_of_fuel
  | S fuel' =>
      response <- http (page_request name next_token) ;;
      raise_for_status response ;;
      data <- response_json response ;;
      spaces <- py_get data "spaces" (JArr []) ;;
      items <- py_iter spaces ;;
      let all_spaces := all_spaces ++ items in
      next_token <- py_get data "nextToken" JNull ;;
      if negb (py_truthy next_token) then ret all_spaces
      else list_spaces_loop fuel' name next_token all_spaces
  end.

Definition list_spaces (fuel : nat) (name : option string) : M (list json) :=
  list_spaces_loop fuel name JNull [].

Definition list_embedders_request : request :=
  mkRequest GET "/v1/embedders" None NoBody None 30.

Definition list_embedders : M json :=
  response <- http list_embedders_request ;;
  raise_for_status response ;;
  data <- response_json response ;;
  py_get data "embedders" (JArr []).

Definition create_embedder_payload (display_name provider_type endpoint_url
    model_identifier : string) (dimensionality : Z) (api_key : string)
    (distribution_type : string) (embedder_id : option string) : dict :=
  let payload : dict :=
    [ ("displayName", JStr display_name);
      ("providerType", JStr provider_type);
      ("endpointUrl", JStr endpoint_url);
      ("modelIdentifier", JStr model_identifier);
      ("dimensionality", JInt dimensionality);
      ("distributionType", JStr distribution_type);
      ("credentials",
        JObj [ ("kind", JStr "CREDENTIAL_KIND_API_KEY");
               ("apiKey", JObj [("inlineSecret", JStr api_key)]) ]) ] in
  match embedder_id with
  | Some eid => dict_set payload "embedderId" (JStr eid)
  | None => payload
  end.

Definition create_embedder (display_name provider_type endpoint_url
    model_identifier : string) (dimensionality : Z) (api_key : string)
    (distribution_type : string) (embedder_id : option string) : M json :=
  let url := "/v1/embedders" in
  let payload :=
    create_embedder_payload display_name provider_type endpoint_url
      model_identifier dimensionality api_key distribution_type embedder_id in
  response <- http (mkRequest POST url None (JsonBody (JObj payload)) None 30) ;;
  raise_for_status response ;;
  response_json response.

Definition get_memory_by_id (memory_id : string) : M json :=
  let encoded_memory_id := quote memory_id in
  let url := String.append "/v1/memories/" encoded_memory_id in
  response <- http (mkRequest GET url None NoBody None 30) ;;
  raise_for_status response ;;
  response_json response.

Definition batch_get_request (memory_ids : list string) : request :=
  mkRequest POST "/v1/memories:batchGet" None
    (JsonBody (JObj [("memoryIds", JArr (map JStr memory_ids))])) None 30.

Definition get_memories_batch (memory_ids : list string) : M json :=
  match memory_ids with
  | [] => ret (JArr [])
  | _ :: _ =>
      response <- http (batch_get_request memory_ids) ;;
      raise_for_status response ;;
      data <- response_json response ;;
      py_get data "memories" (JArr [])
  end.

Definition no_credential_message : message :=
  [ Lit "No embedders available in Goodmem and neither GOOGLE_API_KEY ";
    Lit "nor GEMINI_API_KEY is set. Please create an embedder manually ";
    Lit "or set one of these environment variables to auto-create a ";
    Lit "Google Gemini embedder." ].

Definition _auto_create_google_embedder (debug : bool) : M json :=
  let google_api_key :=
    str_or (getenv h "GOOGLE_API_KEY") (getenv h "GEMINI_API_KEY") in
  match google_api_key with
  | Some key =>
      if String.eqb key "" then raise (ValueError no_credential_message)
      else
        response <-
          create_embedder _GOOGLE_EMBEDDER_DISPLAY_NAME
            _GOOGLE_EMBEDDER_PROVIDER_TYPE _GOOGLE_EMBEDDER_ENDPOINT_URL
            _GOOGLE_EMBEDDER_MODEL_ID _GOOGLE_EMBEDDER_DIMENSIONALITY key
            _GOOGLE_EMBEDDER_DISTRIBUTION_TYPE None ;;
        new_id <- py_get response "embedderId" JNull ;;
        if negb (py_truthy new_id) then
          raise (ValueError
                   [Lit "Failed to auto-create Google embedder: no embedderId in response"])
        else
          debug_print debug [Lit "[DEBUG] Auto-created Google embedder: "; Fmt new_id] ;;
          ret new_id
  | None => raise (ValueError no_credential_message)
  end.

(** [[e.get("embedderId") for e in embedders]]. *)
Fixpoint embedder_ids (embedders : list json) : M (list json) :=
  match embedders with
  | [] => ret []
  | e :: rest =>
      eid <- py_get e "embedderId" JNull ;;
      ids <- embedder_ids rest ;;
      ret (eid :: ids)
  end.

Definition not_found_message (embedder_id : string) (valid_ids : list json)
  : message :=
  [ Lit "GOODMEM_EMBEDDER_ID '"; Fmt (JStr embedder_id); Lit "' not found. ";
    Lit "Available embedders: "; Fmt (JArr valid_ids) ].

Definition ensure_embedder (embedder_id : option string) (debug : bool)
  : M json :=
  embedders <- list_embedders ;;
  match embedder_id with
  | Some eid =>
      es <- py_iter embedders ;;
      valid_ids <- embedder_ids es ;;
      if list_contains_str eid valid_ids then ret (JStr eid)
      else raise (ValueError (not_found_message eid valid_ids))
  | None =>
      let auto_create :=
        debug_print debug
          [ Lit "[DEBUG] No embedders found. Auto-creating Google Gemini embedder ";
            Lit "("; Fmt (JStr _GOOGLE_EMBEDDER_MODEL_ID);
            Lit ") using GOOGLE_API_KEY" ] ;;
        _auto_create_google_embedder debug in
      if py_truthy embedders then
        first <- py_first embedders ;;
        eid <- py_get first "embedderId" JNull ;;
        if py_truthy eid then
          debug_print debug [Lit "[DEBUG] Using existing embedder: "; Fmt eid] ;;
          ret eid
        else auto_create
      else auto_create
  end.

End Client.

(* ------------------------------------------------------------------ *)
(** ** Attribute lookup *)

(** The names an instance of [GoodmemClient] answers to: what [__init__]
    assigns and what the class body defines, in source order.  Looking up
    any other name (the dunder names of [object] aside) raises. *)
Definition instance_attributes : list string :=
  [ "_base_url"; "_api_key"; "_headers"; "_debug"; "_client" ].

Definition class_attributes : list string :=
  [ "__init__"; "close"; "__enter__"; "__exit__"; "_safe_json_dumps";
    "get_space"; "create_space"; "insert_memory"; "insert_memory_binary";
    "retrieve_memories"; "list_spaces"; "list_embedders"; "create_embedder";
    "get_memory_by_id"; "get_memories_batch";
    "_GOOGLE_EMBEDDER_DISPLAY_NAME"; "_GOOGLE_EMBEDDER_PROVIDER_TYPE";
    "_GOOGLE_EMBEDDER_ENDPOINT_URL"; "_GOOGLE_EMBEDDER_MODEL_ID";
    "_GOOGLE_EMBEDDER_DIMENSIONALITY"; "_GOOGLE_EMBEDDER_DISTRIBUTION_TYPE";
    "ensure_embedder"; "_auto_create_google_embedder" ].

Definition has_attribute (name : string) : bool :=
  existsb (String.eqb name) (instance_attributes ++ class_attributes).

(** The attribute lookup that starts every call [client.name(...)]. *)
Definition lookup_attribute (name : string) : M unit :=
  if has_attribute name then ret tt else raise (AttributeError name).

(* ------------------------------------------------------------------ *)
(** ** Space resolution *)

Module Tools.







Section Resolution.

Variable h : host.

(** Modelled from the spec: the choice of the record whose id is returned
    when the name-filtered listing holds several records (names are not
    unique); [goodmem_adk/tools.py] is not among the sources and the
    spec does not say which one it is.  [pick first rest] is the chosen
    record among [first :: rest]. *)
Variable pick : json -> list json -> json.




End Resolution.

End Tools.

(* ------------------------------------------------------------------ *)
(** ** Vocabulary of the properties

    The requests the client sends, named; what a listing or a body is
    made of; what the environment provides. *)

(** The request that [get_space] sends. *)
Definition get_space_request (space_id : string) : request :=
  mkRequest GET (String.append "/v1/spaces/" (quote space_id)) None NoBody None 30.

(** The request that [insert_memory] posts for a payload. *)
Definition insert_request (payload : dict) : request :=
  mkRequest POST "/v1/memories" None (JsonBody (JObj payload)) None 30.


(** The request that [retrieve_memories] posts. *)
Definition retrieve_request (self : GoodmemClient) (query : string)
    (space_ids : list string) (request_size : Z) : request :=
  mkRequest POST "/v1/memories:retrieve" None
    (JsonBody (JObj
       [ ("message", JStr query);
         ("spaceKeys", JArr (map (fun sid => JObj [("spaceId", JStr sid)]) space_ids));
         ("requestedSize", JInt request_size) ]))
    (Some (headers_set (_headers self) "Accept" "application/x-ndjson")) 30.

(** The creation request of the default Google embedder for a credential. *)
Definition create_google_request (key : string) : request :=
  mkRequest POST "/v1/embedders" None
    (JsonBody (JObj
       [ ("displayName", JStr "gemini-embedding-001");
         ("providerType", JStr "OPENAI");
         ("endpointUrl",
           JStr "https://generativelanguage.googleapis.com/v1beta/openai");
         ("modelIdentifier", JStr "gemini-embedding-001");
         ("dimensionality", JInt 1536);
         ("distributionType", JStr "DENSE");
         ("credentials",
           JObj [ ("kind", JStr "CREDENTIAL_KIND_API_KEY");
                  ("apiKey", JObj [("inlineSecret", JStr key)]) ]) ]))
    None 30.

(** A request to the embedder-creation endpoint. *)
Definition creates_embedder (rq : request) : bool :=
  match req_method rq with
  | POST => String.eqb (req_url rq) "/v1/embedders"
  | GET => false
  end.

(** The id a listing entry carries: [e.get("embedderId")] on a record. *)
Definition embedder_id_of (e : json) : json :=
  match e with
  | JObj d => match dict_get d "embedderId" with Some x => x | None => JNull end
  | _ => JNull
  end.

Definition is_record (v : json) : Prop := exists d, v = JObj d.

(** An environment variable is set when it holds a non-empty value: the
    client reads it with [os.getenv(...) or ...] and [if not ...], and both
    its error message and its tests call an empty variable not set. *)
Definition env_set (h : host) (var : string) : Prop :=
  str_truthy (getenv h var) = true.

(** [key] is the credential: the value of [GOOGLE_API_KEY] when that is
    set, else the value of [GEMINI_API_KEY] when that is set. *)
Definition credential_is (h : host) (key : string) : Prop :=
  (env_set h "GOOGLE_API_KEY" /\ getenv h "GOOGLE_API_KEY" = Some key) \/
  (~ env_set h "GOOGLE_API_KEY" /\ env_set h "GEMINI_API_KEY" /\
   getenv h "GEMINI_API_KEY" = Some key).

(** The chunks the lines of a body stand for: of the lines that are not
    blank, those that decode to an object with a [retrievedItem] key, in
    order. *)
Fixpoint retrieved_items (h : host) (lines : list string) : list json :=
  match lines with
  | [] => []
  | line :: rest =>
      if String.eqb (strip line) "" then retrieved_items h rest
      else match json_loads h line with
           | Decoded (JObj d) =>
               if dict_mem d "retrievedItem" then JObj d :: retrieved_items h rest
               else retrieved_items h rest
           | _ => retrieved_items h rest
           end
  end.

(** A body is made of records when, on each of its non-blank lines,
    [json.loads] returns an object or raises [JSONDecodeError]. *)
Definition lines_of_records (h : host) (lines : list string) : Prop :=
  forall line,
    In line lines -> String.eqb (strip line) "" = false ->
    match json_loads h line with
    | Decoded v => is_record v
    | Raised e => exists doc, e = JSONDecodeError doc
    end.

(** The space list of a page: [data.get("spaces", [])] when it is a list. *)
Definition page_spaces (data : dict) : option (list json) :=
  match dict_get data "spaces" with
  | None => Some []
  | Some (JArr items) => Some items
  | Some _ => None
  end.

(** The cursor of a page: [data.get("nextToken")]. *)
Definition page_token (data : dict) : json :=
  match dict_get data "nextToken" with
  | Some t => t
  | None => JNull
  end.

(** After the requests [hist], the service answers the page request for
    cursor [tok] with a 2xx record whose space list is [items] and whose
    cursor is [next]. *)
Definition page_answer (h : host) (name : option string) (hist : list request)
    (tok : json) (items : list json) (next : json) : Prop :=
  exists resp data,
    send h hist (page_request name tok) = inl resp /\
    is_success resp = true /\
    json_loads h (text resp) = Decoded (JObj data) /\
    page_spaces data = Some items /\
    page_token data = next.

(** The service serves finitely many pages from cursor [tok] on: each page
    is listed with the cursor it was asked with, and the last one has no
    next token. *)
Inductive serves (h : host) (name : option string)
  : list request -> json -> list (json * list json) -> Prop :=
| serves_last hist tok items next :
    page_answer h name hist tok items next ->
    py_truthy next = false ->
    serves h name hist tok [(tok, items)]
| serves_more hist tok items next pages :
    page_answer h name hist tok items next ->
    py_truthy next = true ->
    serves h name (hist ++ [page_request name tok]) next pages ->
    serves h name hist tok ((tok, items) :: pages).

(** The requests that fetch a list of pages. *)
Definition page_requests (name : option string) (pages : list (json * list json))
  : list request :=
  map (fun p => page_request name (fst p)) pages.

(** The request [rq] asks for the page [page] of the spaces named [name]:
    a GET of [/v1/spaces] without a body, for at most 1000 records, that
    carries the cursor of the page under [nextToken] exactly when the page
    has one, and the name under [nameFilter] exactly when a name that is
    not empty was given. *)
Definition asks_for (name : option string) (rq : request)
    (page : json * list json) : Prop :=
  req_method rq = GET /\
  req_url rq = "/v1/spaces" /\
  req_body rq = NoBody /\
  exists params,
    req_params rq = Some params /\
    dict_get params "maxResults" = Some (JInt 1000) /\
    dict_get params "nextToken"
    = (if py_truthy (fst page) then Some (fst page) else None) /\
    dict_get params "nameFilter"
    = match name with
      | Some n => if String.eqb n "" then None else Some (JStr n)
      | None => None
      end.

(* ------------------------------------------------------------------ *)
(** ** Sample services

    Small hosts on which the definitions are run: a service that answers
    the n-th request with the n-th scripted answer, a decoder and an
    encoder given by finite tables. *)

(** A JSON text written with apostrophes for the double quotes. *)
Fixpoint unq (s : string) : string :=
  match s with
  | EmptyString => EmptyString
  | String c r =>
      String (if Ascii.eqb c (ascii_of_nat 39) then ascii_of_nat 34 else c) (unq r)
  end.

Definition scripted (answers : list (response + string))
  : list request -> request -> response + string :=
  fun hist _ => nth (List.length hist) answers (inr "connection refused").

Fixpoint table_loads (table : list (string * json)) (s : string) : decoding :=
  match table with
  | [] => Raised (JSONDecodeError s)
  | (t, v) :: rest => if String.eqb s t then Decoded v else table_loads rest s
  end.

Definition no_env : string -> option string := fun _ => None.

Definition env_of (vars : list (string * string)) : string -> option string :=
  fun k =>
    match find (fun kv => String.eqb k (fst kv)) vars with
    | Some kv => Some (snd kv)
    | None => None
    end.

Definition no_dumps : option nat -> json -> option string := fun _ _ => None.

Definition w0 : world := mkWorld [] [].

Definition client0 : GoodmemClient :=
  mkClient "https://api.goodmem.ai" "test-api-key"
           [("x-api-key", "test-api-key")] false.

Definition host_404 : host :=
  mkHost (scripted [inl (mkResponse 404 "no such space")])
         no_env (table_loads []) no_dumps.

(** An encoder that knows the one request body of the examples. *)
Definition pdf_request_text : string :=
  unq "{'spaceId': 'test-space-id', 'contentType': 'application/pdf'}".

Definition pdf_dumps (indent : option nat) (v : json) : option string :=
  match indent, v with
  | None, JObj [("spaceId", JStr "test-space-id");
                ("contentType", JStr "application/pdf")] => Some pdf_request_text
  | _, _ => None
  end.

Definition host_upload : host :=
  mkHost (scripted [inl (mkResponse 200 "created")])
         no_env (table_loads [("created", JObj [("memoryId", JStr "test-memory-id")])])
         pdf_dumps.

(** A service with two embedders and one without any. *)
Definition two_embedders : json :=
  JObj [("embedders",
          JArr [ JObj [("embedderId", JStr "first-emb"); ("name", JStr "First")];
                 JObj [("embedderId", JStr "second-emb"); ("name", JStr "Second")] ])].

Definition host_two_embedders : host :=
  mkHost (scripted [inl (mkResponse 200 "listing")])
         no_env (table_loads [("listing", two_embedders)]) no_dumps.

(** A service that lists two embedders, the first a record without an id
    and the second a usable one, with a credential in the environment. *)
Definition host_nameless_embedder : host :=
  mkHost (scripted [inl (mkResponse 200 "listing"); inl (mkResponse 200 "created")])
         (env_of [("GOOGLE_API_KEY", "test-google-key")])
         (table_loads
            [ ("listing",
                JObj [("embedders",
                       JArr [ JObj [("displayName", JStr "stub")];
                              JObj [("embedderId", JStr "usable-emb")] ])]);
              ("created", JObj [("embedderId", JStr "auto-created-emb")]) ])
         no_dumps.

(** A service without embedders, with one or both credentials set. *)
Definition host_no_embedders (vars : list (string * string)) : host :=
  mkHost (scripted [inl (mkResponse 200 "listing"); inl (mkResponse 200 "created")])
         (env_of vars)
         (table_loads
            [ ("listing", JObj [("embedders", JArr [])]);
              ("created", JObj [("embedderId", JStr "auto-created-emb")]) ])
         no_dumps.

(** A retrieval answered by the one line [1], and one answered by a chunk,
    a blank line, a status line and a line that is not JSON. *)
Definition host_scalar_line : host :=
  mkHost (scripted [inl (mkResponse 200 "1")])
         no_env (table_loads [("1", JInt 1)]) no_dumps.

Definition chunk_line : string := unq "{'retrievedItem': {'chunk': 1}}".
Definition status_line : string := unq "{'status': 'complete'}".

Definition mixed_body : string :=
  String.concat nl [chunk_line; ""; status_line; "not json"; chunk_line].

Definition host_mixed_body : host :=
  mkHost (scripted [inl (mkResponse 200 mixed_body)])
         no_env
         (table_loads
            [ (chunk_line, JObj [("retrievedItem", JObj [("chunk", JInt 1)])]);
              (status_line, JObj [("status", JStr "complete")]) ])
         no_dumps.

(** A listing in two pages, the first with a next token. *)
Definition host_two_pages : host :=
  mkHost (scripted [inl (mkResponse 200 "page1"); inl (mkResponse 200 "page2")])
         no_env
         (table_loads
            [ ("page1", JObj [ ("spaces", JArr [JObj [("spaceId", JStr "s1")]]);
                               ("nextToken", JStr "token123") ]);
              ("page2", JObj [ ("spaces", JArr [JObj [("spaceId", JStr "s2")]]) ]) ])
         no_dumps.




(* ------------------------------------------------------------------ *)
(** ** Further vocabulary: the remaining requests, and callers *)

(** The request that [get_memory_by_id] sends. *)
Definition get_memory_request (memory_id : string) : request :=
  mkRequest GET (String.append "/v1/memories/" (quote memory_id)) None NoBody None 30.

(** The payload and the request of [create_space]. *)
Definition create_space_payload (space_name : string) (embedder_id : json)
    (space_id : option string) : dict :=
  let payload : dict :=
    [ ("name", JStr space_name);
      ("spaceEmbedders",
        JArr [ JObj [ ("embedderId", embedder_id);
                      ("defaultRetrievalWeight", JFloat float_one) ] ]);
      ("defaultChunkingConfig",
        JObj [ ("recursive",
                 JObj [ ("chunkSize", JInt 512);
                        ("chunkOverlap", JInt 64);
                        ("keepStrategy", JStr "KEEP_END");
                        ("lengthMeasurement", JStr "CHARACTER_COUNT") ]) ]) ] in
  match space_id with
  | Some sid => dict_set payload "spaceId" (JStr sid)
  | None => payload
  end.

Definition create_space_request (space_name : string) (embedder_id : json)
    (space_id : option string) : request :=
  mkRequest POST "/v1/spaces" None
    (JsonBody (JObj (create_space_payload space_name embedder_id space_id)))
    None 30.

(** The request of [create_embedder]. *)
Definition create_embedder_request (display_name provider_type endpoint_url
    model_identifier : string) (dimensionality : Z) (api_key : string)
    (distribution_type : string) (embedder_id : option string) : request :=
  mkRequest POST "/v1/embedders" None
    (JsonBody (JObj
       (create_embedder_payload display_name provider_type endpoint_url
          model_identifier dimensionality api_key distribution_type embedder_id)))
    None 30.

(** A JSON scalar: a value on which [k in v] raises [TypeError]. *)
Definition is_scalar (v : json) : bool :=
  match v with
  | JNull | JBool _ | JInt _ | JFloat _ => true
  | JStr _ | JArr _ | JObj _ => false
  end.

(** What a line makes the retrieval loop raise, if anything: nothing when
    the line is blank, is rejected with [JSONDecodeError] or decodes to a
    string, a list or an object; the [TypeError] of the membership test
    when it decodes to a scalar; what [json.loads] raises when that is
    not [JSONDecodeError]. *)
Definition line_failure (h : host) (line : string) : option pyerr :=
  if String.eqb (strip line) "" then None
  else match json_loads h line with
       | Decoded v =>
           if is_scalar v then Some (TypeError "argument is not iterable")
           else None
       | Raised (JSONDecodeError _) => None
       | Raised e => Some e
       end.

(** The failure of the first line that has one. *)
Fixpoint first_failure (h : host) (lines : list string) : option pyerr :=
  match lines with
  | [] => None
  | line :: rest =>
      match line_failure h line with
      | Some e => Some e
      | None => first_failure h rest
      end
  end.

Fixpoint string_forall (p : ascii -> bool) (s : string) : bool :=
  match s with
  | EmptyString => true
  | String c r => p c && string_forall p r
  end.

(** [s] ends with the character [ch]. *)
Fixpoint ends_with (ch : ascii) (s : string) : bool :=
  match s with
  | EmptyString => false
  | String c EmptyString => Ascii.eqb c ch
  | String _ r => ends_with ch r
  end.

(** [n] copies of a character. *)
Fixpoint repeat_char (ch : ascii) (n : nat) : string :=
  match n with
  | O => EmptyString
  | S n' => String ch (repeat_char ch n')
  end.

(** [v[k]] for a [str] key. *)
Definition py_getitem (v : json) (k : string) : M json :=
  match v with
  | JObj d =>
      match dict_get d k with
      | Some x => ret x
      | None => raise KeyError
      end
  | JArr _ => raise (TypeError "list indices must be integers or slices, not str")
  | JStr _ => raise (TypeError "string indices must be integers, not 'str'")
  | _ => raise (TypeError "object is not subscriptable")
  end.

(** The helpers of [tests/test_integration.py] and
    [tests/test_optional_env_vars.py] that drive the client. *)
Module Helpers.

Section Helpers.

Variable h : host.

(** The [for space in spaces] loop of [_find_space_id]. *)
Fixpoint first_named (spaces : list json) (space_name : string) : M json :=
  match spaces with
  | [] => ret JNull
  | space :: rest =>
      name <- py_get space "name" JNull ;;
      if py_eq_str space_name name then py_get space "spaceId" JNull
      else first_named rest space_name
  end.

Definition _find_space_id (fuel : nat) (space_name : string) : M json :=
  spaces <- list_spaces h fuel (Some space_name) ;;
  first_named spaces space_name.

Definition _get_first_embedder_id : M json :=
  embedders <- list_embedders h ;;
  if py_truthy embedders then
    first <- py_first embedders ;;
    py_get first "embedderId" JNull
  else ret JNull.

Definition _pre_create_space (space_name : string) : M json :=
  embedder_id <- ensure_embedder h None false ;;
  result <- create_space h space_name embedder_id None ;;
  py_getitem result "spaceId".

End Helpers.

End Helpers.

(** A transport that refuses every request, a service that answers
    everything with status 500, and one that answers 200 with a body that
    is not JSON. *)
Definition host_unreachable : host :=
  mkHost (scripted []) no_env (table_loads []) no_dumps.

Definition host_500 : host :=
  mkHost (fun _ _ => inl (mkResponse 500 "internal error"))
         no_env (table_loads []) no_dumps.

Definition host_not_json : host :=
  mkHost (fun _ _ => inl (mkResponse 200 "<html>"))
         no_env (table_loads []) no_dumps.

(** The calls that hand one request to the HTTP library and read one
    answer, with their arguments. *)
Inductive call : Type :=
| CallGetSpace (space_id : string)
| CallGetMemory (memory_id : string)
| CallCreateSpace (space_name : string) (embedder_id : json) (space_id : option string)
| CallCreateEmbedder (display_name provider_type endpoint_url model_identifier : string)
    (dimensionality : Z) (api_key distribution_type : string)
    (embedder_id : option string)
| CallInsertMemory (space_id content content_type : string) (metadata : option dict)
| CallListEmbedders
| CallBatchGet (memory_id : string) (more : list string)
| CallRetrieve (self : GoodmemClient) (query : string) (space_ids : list string)
    (request_size : Z).

(** Running a call; the list of chunks of a retrieval is returned as a
    JSON list, the results of the other calls are JSON values already. *)
Definition run (h : host) (c : call) : M json :=
  match c with
  | CallGetSpace space_id => get_space h space_id
  | CallGetMemory memory_id => get_memory_by_id h memory_id
  | CallCreateSpace name eid sid => create_space h name eid sid
  | CallCreateEmbedder dn pt url mid dim key dist eid =>
      create_embedder h dn pt url mid dim key dist eid
  | CallInsertMemory sid content ctype metadata =>
      insert_memory h sid content ctype metadata
  | CallListEmbedders => list_embedders h
  | CallBatchGet id more => get_memories_batch h (id :: more)
  | CallRetrieve self query space_ids request_size =>
      chunks <- retrieve_memories h self query space_ids request_size ;;
      ret (JArr chunks)
  end.

(** The request of a call. *)
Definition request_of (c : call) : request :=
  match c with
  | CallGetSpace space_id => get_space_request space_id
  | CallGetMemory memory_id => get_memory_request memory_id
  | CallCreateSpace name eid sid => create_space_request name eid sid
  | CallCreateEmbedder dn pt url mid dim key dist eid =>
      create_embedder_request dn pt url mid dim key dist eid
  | CallInsertMemory sid content ctype metadata =>
      insert_request
        (with_metadata [ ("spaceId", JStr sid); ("originalContent", JStr content);
                         ("contentType", JStr ctype) ] metadata)
  | CallListEmbedders => list_embedders_request
  | CallBatchGet id more => batch_get_request (id :: more)
  | CallRetrieve self query space_ids request_size =>
      retrieve_request self query space_ids request_size
  end.

(** [get_space] is the one call that reads status 404 as an absence. *)
Definition absent_on_404 (c : call) : bool :=
  match c with
  | CallGetSpace _ => true
  | _ => false
  end.

(** The calls that decode the whole body with [response.json()];
    retrieval decodes line by line instead. *)
Definition decodes_body (c : call) : bool :=
  match c with
  | CallRetrieve _ _ _ _ => false
  | _ => true
  end.

(** The field of the answer that a call returns, when it returns one field
    rather than the whole answer. *)
Definition field_of (c : call) : option string :=
  match c with
  | CallListEmbedders => Some "embedders"
  | CallBatchGet _ _ => Some "memories"
  | _ => None
  end.

(** A chunk comes from a line: the line is not blank and decodes to it. *)
Definition decoded_from (h : host) (lines : list string) (chunk : json) : Prop :=
  exists line,
    In line lines /\ String.eqb (strip line) "" = false /\
    json_loads h line = Decoded chunk.

(** The service never runs out of pages: whatever was requested before,
    it answers a page request with a page that has a next token. *)
Definition always_more (h : host) (name : option string) : Prop :=
  forall hist tok,
    exists items next,
      page_answer h name hist tok items next /\ py_truthy next = true.

(** The listing breaks: after the pages [pages], the request for cursor
    [last] is refused by the transport or answered with an error status. *)
Inductive breaks (h : host) (name : option string)
  : list request -> json -> list (json * list json) -> json -> pyerr -> Prop :=
| breaks_status hist tok resp :
    send h hist (page_request name tok) = inl resp ->
    is_success resp = false ->
    breaks h name hist tok [] tok (HTTPStatusError resp)
| breaks_transport hist tok detail :
    send h hist (page_request name tok) = inr detail ->
    breaks h name hist tok [] tok (RequestError detail)
| breaks_later hist tok items next pages last e :
    page_answer h name hist tok items next ->
    py_truthy next = true ->
    breaks h name (hist ++ [page_request name tok]) next pages last e ->
    breaks h name hist tok ((tok, items) :: pages) last e.

(** A service whose every page has a next token, and one whose second
    page fails. *)
Definition host_endless : host :=
  mkHost (fun _ _ => inl (mkResponse 200 "page"))
         no_env
         (table_loads
            [ ("page", JObj [ ("spaces", JArr [JObj [("spaceId", JStr "s1")]]);
                              ("nextToken", JStr "again") ]) ])
         no_dumps.

Definition host_second_page_fails : host :=
  mkHost (scripted [inl (mkResponse 200 "page1"); inl (mkResponse 503 "unavailable")])
         no_env
         (table_loads
            [ ("page1", JObj [ ("spaces", JArr [JObj [("spaceId", JStr "s1")]]);
                               ("nextToken", JStr "token123") ]) ])
         no_dumps.

(** Two computations agree when, from worlds with the same requests, they
    end in the same outcome with the same requests; what they print may
    differ. *)
Definition agree {A} (c1 c2 : M A) : Prop :=
  forall w1 w2,
    sent w1 = sent w2 ->
    fst (c1 w1) = fst (c2 w2) /\ sent (snd (c1 w1)) = sent (snd (c2 w2)).


(** A step without effects: an outcome, and the world as it was. *)
Definition effect_free {A} (c : M A) : Prop :=
  exists o, forall w, c w = (o, w).

(** [v.get(k)] on a record, [None] when the field is missing. *)
Definition get_or_null (v : json) (k : string) : json :=
  match v with
  | JObj d => match dict_get d k with Some x => x | None => JNull end
  | _ => JNull
  end.

(** The record is called [space_name], exactly. *)
Definition is_named (space_name : string) (space : json) : bool :=
  py_eq_str space_name (get_or_null space "name").

(** A service that lists a look-alike space before the one asked for, as a
    name filter that matches prefixes would. *)
Definition host_lookalike_spaces : host :=
  mkHost (scripted [inl (mkResponse 200 "listing")])
         no_env
         (table_loads
            [ ("listing",
               JObj [("spaces",
                       JArr [ JObj [("spaceId", JStr "id-1"); ("name", JStr "notes_old")];
                              JObj [("spaceId", JStr "id-2"); ("name", JStr "notes")] ])]) ])
         no_dumps.

(** A service without embedders and without credentials in reach. *)
Definition host_bare : host :=
  mkHost (scripted [inl (mkResponse 200 "listing")])
         no_env (table_loads [("listing", JObj [("embedders", JArr [])])]) no_dumps.

(** A service that lists no embedder at first, creates one on request and
    lists it from then on. *)
Definition host_learns_embedder : host :=
  mkHost (scripted [ inl (mkResponse 200 "none"); inl (mkResponse 200 "created");
                     inl (mkResponse 200 "one") ])
         (env_of [("GOOGLE_API_KEY", "test-google-key")])
         (table_loads
            [ ("none", JObj [("embedders", JArr [])]);
              ("created", JObj [("embedderId", JStr "auto-created-emb")]);
              ("one", JObj [("embedders",
                              JArr [JObj [("embedderId", JStr "auto-created-emb")]])]) ])
         no_dumps.

(** A computation touches only requests of some kind when every request it
    adds to the record is of that kind. *)
Definition touches {A} (P : request -> Prop) (c : M A) : Prop :=
  forall w,
    exists reqs, sent (snd (c w)) = sent w ++ reqs /\ Forall P reqs.

(** A request to the embedders endpoint (listing or creation). *)
Definition on_embedders (rq : request) : Prop := req_url rq = "/v1/embedders".

(** [s] does not start with whitespace. *)
Definition starts_clean (s : string) : bool :=
  match s with
  | EmptyString => true
  | String c _ => negb (py_isspace c)
  end.

(** [s] does not end with whitespace. *)
Fixpoint ends_clean (s : string) : bool :=
  match s with
  | EmptyString => true
  | String c EmptyString => negb (py_isspace c)
  | String _ r => ends_clean r
  end.

(** A constructor of the HTTP client that, like [httpx.Client], encodes
    every header value as ASCII and raises [UnicodeEncodeError] on a value
    with a code point above 127. *)
Definition is_ascii (c : ascii) : bool := (N_of_ascii c <? 128)%N.

Definition non_ascii_key : string :=
  String "k" (String (ascii_of_nat 233) (String "y" EmptyString)).

Definition ascii_headers (base_url : string) (headers : list (string * string))
  : option pyerr :=
  if forallb (fun kv => string_forall is_ascii (snd kv)) headers then None
  else Some (UnicodeEncodeError "ascii").

(** A retrieval answered by one line that is an integer of 4301 digits,
    on which [json.loads] raises [ValueError]. *)
Definition long_integer : string := repeat_char (ascii_of_nat 57) 4301.

Definition digit_limit_message : message :=
  [ Lit "Exceeds the limit (4300 digits) for integer string conversion: ";
    Lit "value has 4301 digits; use sys.set_int_max_str_digits() ";
    Lit "to increase the limit" ].

Definition is_digit (c : ascii) : bool :=
  let n := N_of_ascii c in ((48 <=? n) && (n <=? 57))%N.

Definition digit_limit_loads (s : string) : decoding :=
  if string_forall is_digit s && (4300 <? String.length s)%nat
  then Raised (ValueError digit_limit_message)
  else Raised (JSONDecodeError s).

Definition host_digit_limit : host :=
  mkHost (scripted [inl (mkResponse 200 long_integer)])
         no_env digit_limit_loads no_dumps.

(* ------------------------------------------------------------------ *)
(** * Properties *)

(** ** Running one request *)

(** Case analysis on how one request is answered: by a transport failure
    or by a response, with a 2xx status or not, with a body that decodes
    (to each kind of value) or not. *)
Ltac answer_cases :=
  unfold bind, http, raise_for_status, response_json, py_get, ret, raise;
  match goal with
  | |- context [send ?h ?hist ?rq] =>
      destruct (send h hist rq) as [?resp | ?detail]; simpl; [|try reflexivity]
  end;
  match goal with
  | |- context [is_success ?r] =>
      destruct (is_success r); simpl; [|try reflexivity]
  end;
  match goal with
  | |- context [json_loads ?h ?t] =>
      destruct (json_loads h t) as [[]|]; simpl; try reflexivity
  end.

Lemma http_answered h rq w resp :
  send h (sent w) rq = inl resp ->
  http h rq w = (Return resp, mkWorld (sent w ++ [rq]) (printed w)).
Proof. intros Hs. unfold http. rewrite Hs. reflexivity. Qed.

Lemma http_failed h rq w detail :
  send h (sent w) rq = inr detail ->
  http h rq w = (Raise (RequestError detail), mkWorld (sent w ++ [rq]) (printed w)).
Proof. intros Hs. unfold http. rewrite Hs. reflexivity. Qed.

(** Whatever the answer, a request leaves exactly itself in the record. *)
Lemma http_sent h rq w :
  snd (http h rq w) = mkWorld (sent w ++ [rq]) (printed w).
Proof. unfold http. destruct (send h (sent w) rq); reflexivity. Qed.

(** The pattern [response = ...; response.raise_for_status();
    response.json()] changes the world by the one request. *)
Lemma fetch_world h rq w :
  snd ((response <- http h rq ;;
        raise_for_status response ;;
        response_json h response) w)
  = mkWorld (sent w ++ [rq]) (printed w).
Proof.
  answer_cases.
Qed.

Lemma not_success_404 r : status_code r = 404 -> is_success r = false.
Proof. intros E. unfold is_success. rewrite E. reflexivity. Qed.

(** ** Fetching a space by id *)

Lemma get_space_run h space_id w resp :
  send h (sent w) (get_space_request space_id) = inl resp ->
  fst (get_space h space_id w) =
    if status_code resp =? 404 then Return JNull
    else if is_success resp then
      match json_loads h (text resp) with
      | Decoded v => Return v
      | Raised e => Raise e
      end
    else Raise (HTTPStatusError resp).
Proof.
  intros Hs. unfold get_space, bind.
  fold (get_space_request space_id). rewrite (http_answered _ _ _ _ Hs).
  destruct (status_code resp =? 404); [reflexivity|].
  unfold raise_for_status, response_json, ret, raise.
  destruct (is_success resp); simpl; [|reflexivity].
  destruct (json_loads h (text resp)); reflexivity.
Qed.

(** C6, as the code has it.  When the service answers the fetch of a
    space with [resp]: status 404 gives the not-found value [None] and no
    exception; a 2xx status gives the record the body decodes to, and the
    exception of [response.json()] when the body does not decode; every
    other status raises the request failure that carries the response
    (status and body).  So the call raises exactly when the status is
    neither 2xx nor 404, or the status is 2xx and the body does not
    decode. *)
Theorem get_space_by_status h space_id w resp :
  send h (sent w) (get_space_request space_id) = inl resp ->
  let out := fst (get_space h space_id w) in
  (status_code resp = 404 -> out = Return JNull) /\
  (is_success resp = true ->
     forall record, json_loads h (text resp) = Decoded record -> out = Return record) /\
  (is_success resp = true ->
     forall e, json_loads h (text resp) = Raised e -> out = Raise e) /\
  (is_success resp = false -> status_code resp <> 404 ->
     out = Raise (HTTPStatusError resp)) /\
  ((exists e, out = Raise e) <->
     (is_success resp = false /\ status_code resp <> 404) \/
     (is_success resp = true /\ exists e, json_loads h (text resp) = Raised e)).
Proof.
  intros Hs out. subst out. rewrite (get_space_run _ _ _ _ Hs).
  destruct (status_code resp =? 404) eqn:E404.
  - apply Z.eqb_eq in E404. rewrite (not_success_404 _ E404).
    split; [reflexivity|]. split; [discriminate|]. split; [discriminate|].
    split; [intros _ NE; contradiction|].
    split.
    + intros [x Hx]. discriminate.
    + intros [[_ NE] | [Hc _]]; [contradiction | discriminate].
  - apply Z.eqb_neq in E404.
    destruct (is_success resp) eqn:Hok.
    + split; [intros E; contradiction|].
      split; [intros _ record Hr; rewrite Hr; reflexivity|].
      split; [intros _ e Hr; rewrite Hr; reflexivity|].
      split; [discriminate|].
      split.
      * intros [e He]. right. split; [reflexivity|].
        destruct (json_loads h (text resp)) as [v | e']; [discriminate|].
        exists e'. reflexivity.
      * intros [[Hc _] | [_ [e He]]]; [discriminate|].
        rewrite He. exists e. reflexivity.
    + split; [intros E; contradiction|].
      split; [discriminate|]. split; [discriminate|].
      split; [reflexivity|].
      split.
      * intros _. left. split; [reflexivity | assumption].
      * intros _. eauto.
Qed.

Lemma get_space_by_status_witness :
  fst (get_space host_404 "test-space-id" w0) = Return JNull.
Proof.
  exact (proj1 (get_space_by_status host_404 "test-space-id" w0
                  (mkResponse 404 "no such space") eq_refl) eq_refl).
Defined.

(** C6, as stated, fails: the answer has status 200, which is 2xx and not
    404, and [get_space] raises all the same, because the body is not
    JSON. *)
Lemma get_space_raises_on_success_status :
  send host_not_json (sent w0) (get_space_request "test-space-id")
    = inl (mkResponse 200 "<html>") /\
  is_success (mkResponse 200 "<html>") = true /\
  fst (get_space host_not_json "test-space-id" w0)
    = Raise (JSONDecodeError "<html>").
Proof. repeat split. Qed.

(** ** The attribute table *)

(** C8.  An instance of the client has no attribute [delete_space]: the
    call [client.delete_space(space_id)] raises [AttributeError] at the
    lookup and sends nothing. *)
Theorem delete_space_is_missing w :
  has_attribute "delete_space" = false /\
  lookup_attribute "delete_space" w = (Raise (AttributeError "delete_space"), w).
Proof. split; reflexivity. Qed.

(** ** Batch get *)

(** C9.  For the empty list of ids [get_memories_batch] returns the empty
    list and leaves the world as it was (no request); for a non-empty list
    it hands exactly one request to the HTTP library, the batch-get post
    whose body carries all the ids, whatever the answer. *)
Theorem get_memories_batch_requests h w :
  get_memories_batch h [] w = (Return (JArr []), w) /\
  (forall id ids,
     let memory_ids := id :: ids in
     sent (snd (get_memories_batch h memory_ids w))
       = sent w ++ [batch_get_request memory_ids] /\
     req_method (batch_get_request memory_ids) = POST /\
     req_url (batch_get_request memory_ids) = "/v1/memories:batchGet" /\
     req_body (batch_get_request memory_ids)
       = JsonBody (JObj [("memoryIds", JArr (map JStr memory_ids))])).
Proof.
  split; [reflexivity|].
  intros id ids memory_ids. split; [|repeat split].
  unfold get_memories_batch, memory_ids. answer_cases.
Qed.

(** ** Metadata of an inserted memory *)





(** ** Embedder resolution *)

Lemma list_embedders_world h w :
  snd (list_embedders h w)
  = mkWorld (sent w ++ [list_embedders_request]) (printed w).
Proof.
  unfold list_embedders. answer_cases.
Qed.

Lemma embedder_ids_world es : forall w, snd (embedder_ids es w) = w.
Proof.
  induction es as [|e es IH]; intros w; simpl; [reflexivity|].
  unfold bind, py_get, ret, raise.
  destruct e; simpl; try reflexivity.
  specialize (IH w). destruct (embedder_ids es w) as [[ids | err |] w'];
    simpl in *; congruence.
Qed.

Lemma embedder_ids_run es :
  Forall is_record es ->
  forall w, embedder_ids es w = (Return (map embedder_id_of es), w).
Proof.
  induction 1 as [|e es [d ->] _ IH]; intros w; simpl; [reflexivity|].
  unfold bind, py_get, ret. simpl. rewrite IH. reflexivity.
Qed.

Lemma py_eq_str_true s v : py_eq_str s v = true <-> v = JStr s.
Proof.
  destruct v; simpl; split; try discriminate.
  - intros E. apply String.eqb_eq in E. congruence.
  - intros E. injection E as ->. apply String.eqb_refl.
Qed.

Lemma list_contains_str_In s l : list_contains_str s l = true <-> In (JStr s) l.
Proof.
  unfold list_contains_str. rewrite existsb_exists. split.
  - intros [v [Hin Hv]]. apply py_eq_str_true in Hv. subst v. exact Hin.
  - intros Hin. exists (JStr s). split; [exact Hin|]. apply py_eq_str_true. reflexivity.
Qed.

(** An explicit id never leads to more than the listing request. *)
Lemma ensure_embedder_explicit_world h eid debug w :
  snd (ensure_embedder h (Some eid) debug w) = snd (list_embedders h w).
Proof.
  unfold ensure_embedder, bind.
  destruct (list_embedders h w) as [[v | err |] w1]; simpl; try reflexivity.
  unfold py_iter, ret, raise.
  assert (Hids : forall es,
    snd (match embedder_ids es w1 with
         | (Return valid_ids, w') =>
             (if list_contains_str eid valid_ids
              then fun w2 => (Return (JStr eid), w2)
              else fun w2 => (Raise (ValueError (not_found_message eid valid_ids)), w2)) w'
         | (Raise e, w') => (Raise e, w')
         | (OutOfFuel, w') => (OutOfFuel, w')
         end) = w1).
  { intros es. pose proof (embedder_ids_world es w1) as Hw.
    destruct (embedder_ids es w1) as [[ids | e |] w']; simpl in *; try exact Hw.
    destruct (list_contains_str eid ids); exact Hw. }
  destruct v; simpl; try reflexivity; apply Hids.
Qed.

(** C2.  With an explicit embedder id and a listing [es] of embedder
    records: if the id is among the listed ids it is returned, otherwise
    the call raises the not-found [ValueError] whose message interpolates
    the given id and the list of available ids; in both cases the only
    request of the call is the listing, which is no creation request. *)
Theorem ensure_embedder_explicit_id h eid debug w es w1 :
  list_embedders h w = (Return (JArr es), w1) ->
  Forall is_record es ->
  let ids := map embedder_id_of es in
  let run := ensure_embedder h (Some eid) debug w in
  (In (JStr eid) ids -> fst run = Return (JStr eid)) /\
  (~ In (JStr eid) ids ->
     fst run = Raise (ValueError (not_found_message eid ids))) /\
  In (Fmt (JStr eid)) (not_found_message eid ids) /\
  In (Fmt (JArr ids)) (not_found_message eid ids) /\
  sent (snd run) = sent w ++ [list_embedders_request] /\
  creates_embedder list_embedders_request = false.
Proof.
  intros Hlist Hrec ids run.
  assert (Hrun : run =
    (if list_contains_str eid ids then Return (JStr eid)
     else Raise (ValueError (not_found_message eid ids)), w1)).
  { unfold run, ensure_embedder, bind. rewrite Hlist. simpl.
    rewrite (embedder_ids_run es Hrec). fold ids.
    destruct (list_contains_str eid ids); reflexivity. }
  split; [|split; [|split; [|split; [|split]]]].
  - intros Hin. rewrite Hrun. apply list_contains_str_In in Hin.
    rewrite Hin. reflexivity.
  - intros Hnot. rewrite Hrun.
    destruct (list_contains_str eid ids) eqn:E; [|reflexivity].
    apply list_contains_str_In in E. contradiction.
  - simpl. auto.
  - simpl. auto 6.
  - unfold run. rewrite ensure_embedder_explicit_world, list_embedders_world.
    reflexivity.
  - reflexivity.
Qed.

Lemma ensure_embedder_explicit_id_witness :
  fst (ensure_embedder host_two_embedders (Some "nonexistent-emb") false w0)
  = Raise (ValueError
      (not_found_message "nonexistent-emb" [JStr "first-emb"; JStr "second-emb"])).
Proof.
  refine (proj1 (proj2
    (ensure_embedder_explicit_id host_two_embedders "nonexistent-emb" false w0
       [ JObj [("embedderId", JStr "first-emb"); ("name", JStr "First")];
         JObj [("embedderId", JStr "second-emb"); ("name", JStr "Second")] ]
       _ eq_refl _)) _).
  - repeat constructor; eexists; reflexivity.
  - simpl. intros [H | [H | []]]; discriminate.
Defined.

(** X26.  Without an explicit id, when the listing is non-empty and its
    first record carries a non-empty [embedderId], that id is returned,
    whatever the records after it, and the only request of the call is
    the listing. *)
Theorem ensure_embedder_first_wins h debug w first rest eid w1 :
  list_embedders h w = (Return (JArr (JObj first :: rest)), w1) ->
  dict_get first "embedderId" = Some eid ->
  py_truthy eid = true ->
  fst (ensure_embedder h None debug w) = Return eid /\
  sent (snd (ensure_embedder h None debug w)) = sent w ++ [list_embedders_request] /\
  creates_embedder list_embedders_request = false.
Proof.
  intros Hlist Hid Htrue.
  pose proof (list_embedders_world h w) as Hw. rewrite Hlist in Hw. simpl in Hw.
  unfold ensure_embedder, bind. rewrite Hlist. simpl.
  unfold py_get, ret. rewrite Hid, Htrue. unfold debug_print, print, ret.
  subst w1. destruct debug; simpl; auto.
Qed.

Lemma ensure_embedder_first_wins_witness :
  fst (ensure_embedder host_two_embedders None false w0) = Return (JStr "first-emb").
Proof.
  refine (proj1
    (ensure_embedder_first_wins host_two_embedders false w0
       [("embedderId", JStr "first-emb"); ("name", JStr "First")]
       [JObj [("embedderId", JStr "second-emb"); ("name", JStr "Second")]]
       (JStr "first-emb") _ eq_refl eq_refl eq_refl)).
Defined.

Lemma credential_chosen h key :
  credential_is h key ->
  str_or (getenv h "GOOGLE_API_KEY") (getenv h "GEMINI_API_KEY") = Some key /\
  String.eqb key "" = false.
Proof.
  unfold credential_is, env_set, str_or.
  intros [[Hset Hget] | [Hno [Hset Hget]]].
  - rewrite Hset. split; [exact Hget|].
    rewrite Hget in Hset. simpl in Hset. apply negb_true_iff in Hset. exact Hset.
  - destruct (str_truthy (getenv h "GOOGLE_API_KEY")); [exfalso; auto|].
    split; [exact Hget|].
    rewrite Hget in Hset. simpl in Hset. apply negb_true_iff in Hset. exact Hset.
Qed.

Lemma no_credential h :
  ~ env_set h "GOOGLE_API_KEY" -> ~ env_set h "GEMINI_API_KEY" ->
  str_truthy (str_or (getenv h "GOOGLE_API_KEY") (getenv h "GEMINI_API_KEY")) = false.
Proof.
  unfold env_set, str_or. intros H1 H2.
  destruct (str_truthy (getenv h "GOOGLE_API_KEY")); [exfalso; auto|].
  destruct (str_truthy (getenv h "GEMINI_API_KEY")); [exfalso; auto|reflexivity].
Qed.

(** Auto-creation with no usable credential: the error, and nothing sent. *)
Lemma auto_create_without_credential h debug w :
  ~ env_set h "GOOGLE_API_KEY" -> ~ env_set h "GEMINI_API_KEY" ->
  _auto_create_google_embedder h debug w
  = (Raise (ValueError no_credential_message), w).
Proof.
  intros H1 H2. pose proof (no_credential h H1 H2) as Hn.
  unfold _auto_create_google_embedder.
  destruct (str_or _ _) as [key|]; [|reflexivity].
  simpl in Hn. apply negb_false_iff in Hn. rewrite Hn. reflexivity.
Qed.

Lemma create_embedder_google h key :
  create_embedder h _GOOGLE_EMBEDDER_DISPLAY_NAME _GOOGLE_EMBEDDER_PROVIDER_TYPE
    _GOOGLE_EMBEDDER_ENDPOINT_URL _GOOGLE_EMBEDDER_MODEL_ID
    _GOOGLE_EMBEDDER_DIMENSIONALITY key _GOOGLE_EMBEDDER_DISTRIBUTION_TYPE None
  = (response <- http h (create_google_request key) ;;
     raise_for_status response ;;
     response_json h response).
Proof. reflexivity. Qed.

(** Auto-creation with credential [key]: one creation request, and the id
    of the created record when the service answers with one. *)
Lemma auto_create_with_credential h debug w key :
  credential_is h key ->
  sent (snd (_auto_create_google_embedder h debug w))
    = sent w ++ [create_google_request key] /\
  forall resp record new_id,
    send h (sent w) (create_google_request key) = inl resp ->
    is_success resp = true ->
    json_loads h (text resp) = Decoded (JObj record) ->
    dict_get record "embedderId" = Some new_id ->
    py_truthy new_id = true ->
    fst (_auto_create_google_embedder h debug w) = Return new_id.
Proof.
  intros Hc. destruct (credential_chosen h key Hc) as [Hkey Hne].
  unfold _auto_create_google_embedder. rewrite Hkey, Hne.
  rewrite create_embedder_google.
  unfold bind, http, raise_for_status, response_json, py_get, debug_print, print,
    ret, raise.
  split.
  - destruct (send h (sent w) _) as [resp | detail]; simpl; [|reflexivity].
    destruct (is_success resp); simpl; [|reflexivity].
    destruct (json_loads h (text resp)) as [[]|]; simpl; try reflexivity.
    destruct (dict_get fields "embedderId") as [v|]; simpl; [|reflexivity].
    destruct (py_truthy v); simpl; [|reflexivity].
    destruct debug; reflexivity.
  - intros resp record new_id Hs Hok Hj Hid Ht.
    rewrite Hs. simpl. rewrite Hok. simpl. rewrite Hj. simpl. rewrite Hid, Ht.
    simpl. destruct debug; reflexivity.
Qed.

(** C3 fails on the code.  Without an explicit id, when the listing is
    non-empty but its first record carries no [embedderId] (or an empty
    one) and a credential is set, the call does not return a listed
    embedder: whatever the records after the first, a usable one among
    them or not, it sends the creation request after the listing and
    returns the id of the embedder it created. *)
Theorem nameless_first_embedder_is_created h debug w first rest w1 key :
  list_embedders h w = (Return (JArr (JObj first :: rest)), w1) ->
  (forall eid, dict_get first "embedderId" = Some eid -> py_truthy eid = false) ->
  credential_is h key ->
  sent (snd (ensure_embedder h None debug w))
  = sent w ++ [list_embedders_request; create_google_request key] /\
  creates_embedder (create_google_request key) = true /\
  forall resp record new_id,
    send h (sent w ++ [list_embedders_request]) (create_google_request key)
    = inl resp ->
    is_success resp = true ->
    json_loads h (text resp) = Decoded (JObj record) ->
    dict_get record "embedderId" = Some new_id ->
    py_truthy new_id = true ->
    fst (ensure_embedder h None debug w) = Return new_id.
Proof.
  intros Hlist Hnone Hcred.
  pose proof (list_embedders_world h w) as Hw. rewrite Hlist in Hw. simpl in Hw.
  assert (Hrun : exists w2, sent w2 = sent w ++ [list_embedders_request] /\
            ensure_embedder h None debug w = _auto_create_google_embedder h debug w2).
  { unfold ensure_embedder, bind. rewrite Hlist. simpl. unfold py_get, ret.
    assert (Hfalse : py_truthy match dict_get first "embedderId" with
                               | Some x => x
                               | None => JNull
                               end = false).
    { destruct (dict_get first "embedderId") as [eid|];
        [apply Hnone; reflexivity | reflexivity]. }
    rewrite Hfalse. unfold debug_print, print, ret. subst w1.
    destruct debug; simpl; eexists; (split; [|reflexivity]); reflexivity. }
  destruct Hrun as [w2 [Hs ->]].
  destruct (auto_create_with_credential h debug w2 key Hcred) as [Hsent Hret].
  split; [rewrite Hsent, Hs, <- app_assoc; reflexivity|].
  split; [reflexivity|].
  intros resp record new_id Hsend. rewrite <- Hs in Hsend.
  exact (Hret resp record new_id Hsend).
Qed.

Lemma nameless_first_embedder_is_created_witness :
  fst (list_embedders host_nameless_embedder w0)
    = Return (JArr [ JObj [("displayName", JStr "stub")];
                     JObj [("embedderId", JStr "usable-emb")] ]) /\
  sent (snd (ensure_embedder host_nameless_embedder None false w0))
    = [list_embedders_request; create_google_request "test-google-key"] /\
  fst (ensure_embedder host_nameless_embedder None false w0)
    = Return (JStr "auto-created-emb").
Proof.
  pose proof (nameless_first_embedder_is_created host_nameless_embedder false w0
                [("displayName", JStr "stub")]
                [JObj [("embedderId", JStr "usable-emb")]]
                (mkWorld [list_embedders_request] []) "test-google-key"
                eq_refl
                (fun eid (H : None = Some eid) =>
                   match H in (_ = o) return (match o with
                                              | Some _ => py_truthy eid = false
                                              | None => True
                                              end) with
                   | eq_refl => I
                   end)
                (or_introl (conj eq_refl eq_refl))) as H.
  split; [reflexivity|]. split; [exact (proj1 H)|].
  exact (proj2 (proj2 H) (mkResponse 200 "created")
           [("embedderId", JStr "auto-created-emb")] (JStr "auto-created-emb")
           eq_refl eq_refl eq_refl eq_refl eq_refl).
Defined.

(** C4.  Without an explicit id and with an empty listing: when neither
    [GOOGLE_API_KEY] nor [GEMINI_API_KEY] is set the call raises the
    descriptive [ValueError] and sends nothing after the listing; when a
    credential is set ([GOOGLE_API_KEY] first) the call sends, after the
    listing, exactly one request, the creation of an embedder with the
    fixed profile and that credential, and returns the id of the record
    the service answers with. *)
Theorem ensure_embedder_auto_create h debug w w1 :
  list_embedders h w = (Return (JArr []), w1) ->
  let run := ensure_embedder h None debug w in
  sent w1 = sent w ++ [list_embedders_request] /\
  (~ env_set h "GOOGLE_API_KEY" -> ~ env_set h "GEMINI_API_KEY" ->
     fst run = Raise (ValueError no_credential_message) /\
     sent (snd run) = sent w1) /\
  (forall key,
     credential_is h key ->
     sent (snd run) = sent w1 ++ [create_google_request key] /\
     creates_embedder (create_google_request key) = true /\
     forall resp record new_id,
       send h (sent w1) (create_google_request key) = inl resp ->
       is_success resp = true ->
       json_loads h (text resp) = Decoded (JObj record) ->
       dict_get record "embedderId" = Some new_id ->
       py_truthy new_id = true ->
       fst run = Return new_id).
Proof.
  intros Hlist run.
  pose proof (list_embedders_world h w) as Hw. rewrite Hlist in Hw. simpl in Hw.
  split; [rewrite Hw; reflexivity|].
  assert (Hrun : exists w2, sent w2 = sent w1 /\
                            run = _auto_create_google_embedder h debug w2).
  { unfold run, ensure_embedder, bind. rewrite Hlist. simpl.
    unfold debug_print, print, ret.
    destruct debug; simpl; eexists; (split; [|reflexivity]); reflexivity. }
  destruct Hrun as [w2 [Hsent Hrun]]. rewrite Hrun. split.
  - intros H1 H2. rewrite (auto_create_without_credential h debug w2 H1 H2).
    split; [reflexivity | exact Hsent].
  - intros key Hc.
    destruct (auto_create_with_credential h debug w2 key Hc) as [Hs Hr].
    rewrite <- Hsent. split; [exact Hs|]. split; [reflexivity|].
    exact Hr.
Qed.

Lemma ensure_embedder_auto_create_witness :
  fst (ensure_embedder
         (host_no_embedders [ ("GEMINI_API_KEY", "test-gemini-key");
                              ("GOOGLE_API_KEY", "test-google-key") ])
         None false w0)
  = Return (JStr "auto-created-emb").
Proof.
  refine (proj2 (proj2 (proj2 (proj2
    (ensure_embedder_auto_create
       (host_no_embedders [ ("GEMINI_API_KEY", "test-gemini-key");
                            ("GOOGLE_API_KEY", "test-google-key") ])
       false w0 _ eq_refl)) "test-google-key" _))
    (mkResponse 200 "created") [("embedderId", JStr "auto-created-emb")]
    (JStr "auto-created-emb") eq_refl eq_refl eq_refl eq_refl eq_refl).
  left. split; reflexivity.
Defined.

(** ** Retrieval *)

Lemma retrieve_memories_run h self query space_ids request_size w resp :
  send h (sent w) (retrieve_request self query space_ids request_size) = inl resp ->
  is_success resp = true ->
  retrieve_memories h self query space_ids request_size w
  = collect_chunks h (split_on newline (strip (text resp))) []
      (mkWorld (sent w ++ [retrieve_request self query space_ids request_size])
               (printed w)).
Proof.
  intros Hs Hok. unfold retrieve_memories, bind.
  fold (retrieve_request self query space_ids request_size).
  rewrite (http_answered _ _ _ _ Hs). unfold raise_for_status. rewrite Hok.
  reflexivity.
Qed.

(** On a body made of records the loop keeps exactly the retrieved items. *)
Lemma collect_chunks_records h lines :
  lines_of_records h lines ->
  forall chunks w,
    collect_chunks h lines chunks w
    = (Return (chunks ++ retrieved_items h lines), w).
Proof.
  induction lines as [|line rest IH]; intros Hrec chunks w; simpl.
  - rewrite app_nil_r. reflexivity.
  - assert (Hrest : lines_of_records h rest).
    { intros l Hin. apply Hrec. right. exact Hin. }
    destruct (String.eqb (strip line) "") eqn:Hblank; simpl.
    + apply IH. exact Hrest.
    + pose proof (Hrec line (or_introl eq_refl) Hblank) as Hline.
      destruct (json_loads h line) as [v | e].
      * destruct Hline as [d ->].
        unfold bind, py_in, ret. simpl.
        destruct (dict_mem d "retrievedItem").
        -- rewrite (IH Hrest). rewrite <- app_assoc. reflexivity.
        -- apply IH. exact Hrest.
      * destruct Hline as [doc ->]. apply IH. exact Hrest.
Qed.

(** X1.  On a 2xx body on each non-blank line of which [json.loads]
    returns an object or raises [JSONDecodeError], retrieval returns
    exactly the lines that decode to an object with a [retrievedItem]
    key, in their order; blank lines and the rejected lines are
    skipped. *)
Theorem retrieve_memories_records h self query space_ids request_size w resp :
  send h (sent w) (retrieve_request self query space_ids request_size) = inl resp ->
  is_success resp = true ->
  lines_of_records h (split_on newline (strip (text resp))) ->
  fst (retrieve_memories h self query space_ids request_size w)
  = Return (retrieved_items h (split_on newline (strip (text resp)))).
Proof.
  intros Hs Hok Hrec. rewrite (retrieve_memories_run _ _ _ _ _ _ _ Hs Hok).
  rewrite (collect_chunks_records h _ Hrec). reflexivity.
Qed.

Lemma mixed_body_lines :
  lines_of_records host_mixed_body (split_on newline (strip mixed_body)).
Proof.
  intros line Hin Hblank. vm_compute in Hin.
  destruct Hin as [<- | [<- | [<- | [<- | [<- | []]]]]];
    try (vm_compute in Hblank; discriminate);
    vm_compute; eexists; reflexivity.
Defined.

Lemma retrieve_memories_records_witness :
  fst (retrieve_memories host_mixed_body client0 "query" ["test-space-id"] 5 w0)
  = Return [ JObj [("retrievedItem", JObj [("chunk", JInt 1)])];
             JObj [("retrievedItem", JObj [("chunk", JInt 1)])] ].
Proof.
  exact (retrieve_memories_records host_mixed_body client0 "query"
           ["test-space-id"] 5 w0 (mkResponse 200 mixed_body)
           eq_refl eq_refl mixed_body_lines).
Defined.

(** C5 fails on the code.  When the body of a 2xx answer is one non-blank
    line that decodes to [v], the result follows the membership test
    ["retrievedItem" in v] on whatever [v] is: a list or a string that
    contains ["retrievedItem"] is returned as a chunk, and a number, a
    boolean or [null] makes the call raise [TypeError] instead of being
    skipped. *)
Theorem retrieve_memories_one_line h self query space_ids request_size w resp line v :
  send h (sent w) (retrieve_request self query space_ids request_size) = inl resp ->
  is_success resp = true ->
  split_on newline (strip (text resp)) = [line] ->
  String.eqb (strip line) "" = false ->
  json_loads h line = Decoded v ->
  fst (retrieve_memories h self query space_ids request_size w)
  = match v with
    | JObj d => Return (if dict_mem d "retrievedItem" then [v] else [])
    | JArr l => Return (if list_contains_str "retrievedItem" l then [v] else [])
    | JStr s => Return (if is_substring "retrievedItem" s then [v] else [])
    | _ => Raise (TypeError "argument is not iterable")
    end.
Proof.
  intros Hs Hok Hlines Hblank Hj.
  rewrite (retrieve_memories_run _ _ _ _ _ _ _ Hs Hok). rewrite Hlines.
  simpl. rewrite Hblank, Hj. simpl.
  unfold bind, py_in, ret, raise.
  destruct v; simpl; try reflexivity.
  - destruct (is_substring "retrievedItem" s); reflexivity.
  - destruct (list_contains_str "retrievedItem" items); reflexivity.
  - destruct (dict_mem fields "retrievedItem"); reflexivity.
Qed.

Lemma retrieve_memories_one_line_witness :
  fst (retrieve_memories host_scalar_line client0 "query" ["test-space-id"] 5 w0)
  = Raise (TypeError "argument is not iterable").
Proof.
  exact (retrieve_memories_one_line host_scalar_line client0 "query"
           ["test-space-id"] 5 w0 (mkResponse 200 "1") "1" (JInt 1)
           eq_refl eq_refl eq_refl eq_refl eq_refl).
Defined.

(** ** Listing spaces *)

Lemma page_step h name tok items next acc w fuel :
  page_answer h name (sent w) tok items next ->
  list_spaces_loop h (S fuel) name tok acc w
  = if negb (py_truthy next) then
      (Return (acc ++ items),
       mkWorld (sent w ++ [page_request name tok]) (printed w))
    else
      list_spaces_loop h fuel name next (acc ++ items)
        (mkWorld (sent w ++ [page_request name tok]) (printed w)).
Proof.
  intros [resp [data [Hs [Hok [Hj [Hsp Htok]]]]]].
  simpl. unfold bind. rewrite (http_answered _ _ _ _ Hs).
  unfold raise_for_status, response_json. rewrite Hok, Hj. simpl.
  unfold page_spaces in Hsp. unfold page_token in Htok.
  destruct (dict_get data "spaces") as [[]|]; try discriminate;
    injection Hsp as <-; simpl; rewrite Htok;
    destruct (py_truthy next); reflexivity.
Qed.

Lemma list_spaces_loop_serves h name hist tok pages :
  serves h name hist tok pages ->
  forall acc w fuel,
    sent w = hist ->
    (List.length pages <= fuel)%nat ->
    list_spaces_loop h fuel name tok acc w
    = (Return (acc ++ List.concat (map snd pages)),
       mkWorld (sent w ++ page_requests name pages) (printed w)).
Proof.
  induction 1 as [hist tok items next Hans Hlast
                 | hist tok items next pages Hans Hmore Hrest IH];
    intros acc w fuel Hw Hfuel; subst hist;
    (destruct fuel as [|fuel]; [simpl in Hfuel; lia|]);
    rewrite (page_step _ _ _ _ _ _ _ _ Hans).
  - rewrite Hlast. simpl. rewrite app_nil_r. reflexivity.
  - rewrite Hmore. simpl.
    rewrite (IH (acc ++ items)
               (mkWorld (sent w ++ [page_request name tok]) (printed w))
               fuel eq_refl) by (simpl in Hfuel; lia).
    simpl. rewrite <- !app_assoc. reflexivity.
Qed.

Lemma page_params_no_filter tok :
  dict_get (page_params None tok) "nameFilter" = None.
Proof. unfold page_params. destruct (py_truthy tok); reflexivity. Qed.

Lemma page_request_asks_for name tok items :
  asks_for name (page_request name tok) (tok, items).
Proof.
  unfold asks_for, page_request, page_params. simpl.
  split; [reflexivity|]. split; [reflexivity|]. split; [reflexivity|].
  eexists. split; [reflexivity|].
  destruct name as [n|]; [destruct (String.eqb n "")|];
    destruct (py_truthy tok); simpl; split; try reflexivity;
    split; reflexivity.
Qed.

Lemma page_requests_ask_for name pages :
  Forall2 (asks_for name) (page_requests name pages) pages.
Proof.
  induction pages as [|[tok items] pages IH]; simpl; constructor.
  - apply page_request_asks_for.
  - exact IH.
Qed.

Lemma serves_cursors h name hist tok pages :
  serves h name hist tok pages ->
  exists items rest,
    pages = (tok, items) :: rest /\
    Forall (fun page => py_truthy (fst page) = true) rest.
Proof.
  induction 1 as [hist tok items next Hans Hlast
                 | hist tok items next pages Hans Hmore Hrest IH].
  - exists items, []. split; [reflexivity | constructor].
  - destruct IH as [items' [rest [-> Hall]]].
    exists items, ((next, items') :: rest). split; [reflexivity|].
    constructor; [exact Hmore | exact Hall].
Qed.

(** C7.  When the service serves finitely many pages, [list_spaces]
    terminates: with enough fuel (one unit per page) it returns the
    concatenation of the space lists of the pages in page order, having
    sent one request per page, in page order.  The request of a page is a
    GET of [/v1/spaces] that carries the cursor of its page under
    [nextToken] and the name filter when a name was given; the first page
    has no cursor, so the first request carries no [nextToken], and every
    later page has the cursor that the answer before it gave. *)
Theorem list_spaces_paginates h name w pages :
  serves h name (sent w) JNull pages ->
  (forall fuel,
     (List.length pages <= fuel)%nat ->
     list_spaces h fuel name w
     = (Return (List.concat (map snd pages)),
        mkWorld (sent w ++ page_requests name pages) (printed w))) /\
  List.length (page_requests name pages) = List.length pages /\
  Forall2 (asks_for name) (page_requests name pages) pages /\
  (exists items rest,
     pages = (JNull, items) :: rest /\
     Forall (fun page => py_truthy (fst page) = true) rest).
Proof.
  intros Hserves. split; [|split; [|split]].
  - intros fuel Hfuel. unfold list_spaces.
    rewrite (list_spaces_loop_serves _ _ _ _ _ Hserves [] w fuel eq_refl Hfuel).
    reflexivity.
  - unfold page_requests. apply length_map.
  - apply page_requests_ask_for.
  - exact (serves_cursors _ _ _ _ _ Hserves).
Qed.

Lemma list_spaces_paginates_witness :
  list_spaces host_two_pages 2 None w0
  = (Return [JObj [("spaceId", JStr "s1")]; JObj [("spaceId", JStr "s2")]],
     mkWorld
       [ mkRequest GET "/v1/spaces" (Some [("maxResults", JInt 1000)])
           NoBody None 30;
         mkRequest GET "/v1/spaces"
           (Some [("maxResults", JInt 1000); ("nextToken", JStr "token123")])
           NoBody None 30 ]
       []).
Proof.
  refine (proj1
    (list_spaces_paginates host_two_pages None w0
       [ (JNull, [JObj [("spaceId", JStr "s1")]]);
         (JStr "token123", [JObj [("spaceId", JStr "s2")]]) ] _) 2%nat _).
  - eapply serves_more with (next := JStr "token123").
    + do 2 eexists. repeat split.
    + reflexivity.
    + eapply serves_last with (next := JNull).
      * do 2 eexists. repeat split.
      * reflexivity.
  - simpl. lia.
Defined.


(** ** Space resolution *)



(* ------------------------------------------------------------------ *)
(** * Further properties *)

(** ** What one call does with one answer *)

Lemma collect_chunks_world h lines :
  forall chunks w, snd (collect_chunks h lines chunks w) = w.
Proof.
  induction lines as [|line rest IH]; intros chunks w; simpl; [reflexivity|].
  destruct (negb (String.eqb (strip line) "")); [|apply IH].
  destruct (json_loads h line) as [v | e];
    [|destruct e; first [apply IH | reflexivity]].
  unfold bind, py_in, ret, raise.
  destruct v; simpl; try reflexivity.
  - destruct (is_substring "retrievedItem" s); apply IH.
  - destruct (list_contains_str "retrievedItem" items); apply IH.
  - destruct (dict_mem fields "retrievedItem"); apply IH.
Qed.

Lemma retrieve_memories_world h self query space_ids request_size w :
  snd (retrieve_memories h self query space_ids request_size w)
  = mkWorld (sent w ++ [retrieve_request self query space_ids request_size])
            (printed w).
Proof.
  unfold retrieve_memories. fold (retrieve_request self query space_ids request_size).
  unfold bind, http, raise_for_status, ret, raise.
  destruct (send h (sent w) _) as [resp | detail]; simpl; [|reflexivity].
  destruct (is_success resp); simpl; [|reflexivity].
  apply collect_chunks_world.
Qed.

(** X2.  Each of the calls [get_space], [get_memory_by_id], [create_space],
    [create_embedder], [insert_memory], [list_embedders],
    [get_memories_batch] (on a non-empty list) and [retrieve_memories]
    hands exactly one request to the HTTP library, whatever the answer,
    and prints nothing: no retry after a failure, no follow-up request. *)
Theorem every_call_sends_one_request h c w :
  snd (run h c w) = mkWorld (sent w ++ [request_of c]) (printed w).
Proof.
  destruct c; simpl.
  - unfold get_space, bind, http, raise_for_status, response_json, ret, raise.
    fold (get_space_request space_id).
    destruct (send h (sent w) _) as [resp | detail]; simpl; [|reflexivity].
    destruct (status_code resp =? 404); simpl; [reflexivity|].
    destruct (is_success resp); simpl; [|reflexivity].
    destruct (json_loads h (text resp)); reflexivity.
  - unfold get_memory_by_id. apply fetch_world.
  - unfold create_space. apply fetch_world.
  - unfold create_embedder. apply fetch_world.
  - unfold insert_memory. apply fetch_world.
  - apply list_embedders_world.
  - unfold get_memories_batch. answer_cases.
  - unfold bind at 1.
    pose proof (retrieve_memories_world h self query space_ids request_size w) as Hw.
    destruct (retrieve_memories h self query space_ids request_size w)
      as [[chunks | e |] w']; simpl in *; exact Hw.
Qed.

(** The outcome of a call that decodes the whole body, from its answer. *)
Lemma run_outcome h c w :
  decodes_body c = true ->
  fst (run h c w) =
    match send h (sent w) (request_of c) with
    | inr detail => Raise (RequestError detail)
    | inl resp =>
        if absent_on_404 c && (status_code resp =? 404) then Return JNull
        else if is_success resp then
          match json_loads h (text resp) with
          | Raised e => Raise e
          | Decoded v =>
              match field_of c with
              | None => Return v
              | Some k =>
                  match v with
                  | JObj d =>
                      Return (match dict_get d k with Some x => x | None => JArr [] end)
                  | _ => Raise (AttributeError "get")
                  end
              end
          end
        else Raise (HTTPStatusError resp)
    end.
Proof.
  intros Hd. destruct c; try discriminate; simpl.
  - unfold get_space, bind, http, raise_for_status, response_json, ret, raise.
    fold (get_space_request space_id).
    destruct (send h (sent w) _) as [resp | detail]; simpl; [|reflexivity].
    destruct (status_code resp =? 404); simpl; [reflexivity|].
    destruct (is_success resp); simpl; [|reflexivity].
    destruct (json_loads h (text resp)); reflexivity.
  - unfold get_memory_by_id. fold (get_memory_request memory_id). answer_cases.
  - unfold create_space.
    fold (create_space_payload space_name embedder_id space_id).
    fold (create_space_request space_name embedder_id space_id). answer_cases.
  - unfold create_embedder.
    fold (create_embedder_request display_name provider_type endpoint_url
            model_identifier dimensionality api_key distribution_type embedder_id).
    answer_cases.
  - unfold insert_memory.
    match goal with
    | |- context [mkRequest POST "/v1/memories" None (JsonBody (JObj ?p)) None 30] =>
        fold (insert_request p)
    end.
    answer_cases.
  - unfold list_embedders. answer_cases.
  - unfold get_memories_batch. answer_cases.
Qed.

Lemma run_retrieve_outcome h self query space_ids request_size w :
  fst (run h (CallRetrieve self query space_ids request_size) w) =
    match send h (sent w) (retrieve_request self query space_ids request_size) with
    | inr detail => Raise (RequestError detail)
    | inl resp =>
        if is_success resp then
          match fst (collect_chunks h (split_on newline (strip (text resp))) []
                       (mkWorld (sent w ++ [retrieve_request self query space_ids
                                              request_size]) (printed w))) with
          | Return chunks => Return (JArr chunks)
          | Raise e => Raise e
          | OutOfFuel => OutOfFuel
          end
        else Raise (HTTPStatusError resp)
    end.
Proof.
  simpl. unfold retrieve_memories.
  fold (retrieve_request self query space_ids request_size).
  unfold bind, http, raise_for_status, ret, raise.
  destruct (send h (sent w) _) as [resp | detail]; simpl; [|reflexivity].
  destruct (is_success resp); simpl; [|reflexivity].
  destruct (collect_chunks h _ _ _) as [[chunks | e |] w']; reflexivity.
Qed.

Lemma success_is_not_404 r : is_success r = true -> (status_code r =? 404) = false.
Proof.
  unfold is_success. intros H. apply andb_true_iff in H. destruct H as [_ H].
  apply Z.leb_le in H. apply Z.eqb_neq. lia.
Qed.

(** X3.  A failure of the transport (connection, timeout) is never
    swallowed: every call raises the [RequestError] it got. *)
Theorem transport_failure_is_raised h c w detail :
  send h (sent w) (request_of c) = inr detail ->
  fst (run h c w) = Raise (RequestError detail).
Proof.
  intros Hs. destruct (decodes_body c) eqn:Hd.
  - rewrite (run_outcome h c w Hd), Hs. reflexivity.
  - destruct c; try discriminate.
    rewrite run_retrieve_outcome. simpl in Hs. rewrite Hs. reflexivity.
Qed.

Lemma transport_failure_is_raised_witness :
  fst (get_memory_by_id host_unreachable "test-memory-id" w0)
  = Raise (RequestError "connection refused").
Proof.
  exact (transport_failure_is_raised host_unreachable
           (CallGetMemory "test-memory-id") w0 "connection refused" eq_refl).
Defined.

(** X4.  An answer with a status outside 2xx makes every call raise the
    [HTTPStatusError] that carries the answer; the one exception is status
    404 for [get_space].  In particular 404 is an error for
    [get_memory_by_id]. *)
Theorem error_status_is_raised h c w resp :
  send h (sent w) (request_of c) = inl resp ->
  is_success resp = false ->
  (absent_on_404 c = true -> status_code resp <> 404) ->
  fst (run h c w) = Raise (HTTPStatusError resp).
Proof.
  intros Hs Hok H404. destruct (decodes_body c) eqn:Hd.
  - rewrite (run_outcome h c w Hd), Hs, Hok.
    destruct (absent_on_404 c); simpl; [|reflexivity].
    destruct (status_code resp =? 404) eqn:E; [|reflexivity].
    apply Z.eqb_eq in E. exfalso. apply (H404 eq_refl). exact E.
  - destruct c; try discriminate.
    rewrite run_retrieve_outcome. simpl in Hs. rewrite Hs, Hok. reflexivity.
Qed.

Lemma error_status_is_raised_witness :
  fst (get_memory_by_id host_404 "test-memory-id" w0)
  = Raise (HTTPStatusError (mkResponse 404 "no such space")).
Proof.
  refine (error_status_is_raised host_404 (CallGetMemory "test-memory-id") w0
            (mkResponse 404 "no such space") eq_refl eq_refl _).
  discriminate.
Defined.

(** X5.  A 2xx answer whose body is not JSON makes every call that reads
    the body with [response.json()] raise the decode error (and any other
    exception of the decoder is raised as well); the status alone does
    not make the call succeed. *)
Theorem undecodable_body_is_raised h c w resp e :
  decodes_body c = true ->
  send h (sent w) (request_of c) = inl resp ->
  is_success resp = true ->
  json_loads h (text resp) = Raised e ->
  fst (run h c w) = Raise e.
Proof.
  intros Hd Hs Hok Hj.
  rewrite (run_outcome h c w Hd), Hs, (success_is_not_404 _ Hok), Hok, Hj.
  rewrite andb_false_r. reflexivity.
Qed.

Lemma undecodable_body_is_raised_witness :
  fst (create_space host_not_json "my_new_space" (JStr "emb-1") None w0)
  = Raise (JSONDecodeError "<html>").
Proof.
  exact (undecodable_body_is_raised host_not_json
           (CallCreateSpace "my_new_space" (JStr "emb-1") None) w0
           (mkResponse 200 "<html>") (JSONDecodeError "<html>")
           eq_refl eq_refl eq_refl eq_refl).
Defined.

(** X6.  On a 2xx answer that decodes to [v]: [get_space],
    [get_memory_by_id], [create_space], [create_embedder] and
    [insert_memory] return [v] as it is, without looking inside;
    [list_embedders] and [get_memories_batch] return the [embedders] or
    [memories] field of [v], the empty list when [v] is a record without
    that field, and raise [AttributeError] when [v] is not a record. *)
Theorem decoded_body_is_returned h c w resp v :
  decodes_body c = true ->
  send h (sent w) (request_of c) = inl resp ->
  is_success resp = true ->
  json_loads h (text resp) = Decoded v ->
  fst (run h c w) =
    match field_of c with
    | None => Return v
    | Some k =>
        match v with
        | JObj d => Return (match dict_get d k with Some x => x | None => JArr [] end)
        | _ => Raise (AttributeError "get")
        end
    end.
Proof.
  intros Hd Hs Hok Hj.
  rewrite (run_outcome h c w Hd), Hs, (success_is_not_404 _ Hok), Hok, Hj.
  rewrite andb_false_r. reflexivity.
Qed.

Lemma decoded_body_is_returned_witness :
  fst (get_memories_batch host_upload ["test-memory-id"] w0) = Return (JArr []).
Proof.
  exact (decoded_body_is_returned host_upload (CallBatchGet "test-memory-id" []) w0
           (mkResponse 200 "created") (JObj [("memoryId", JStr "test-memory-id")])
           eq_refl eq_refl eq_refl eq_refl).
Defined.

(** ** Retrieval, on any body *)

Lemma decoded_from_cons h line lines chunk :
  decoded_from h lines chunk -> decoded_from h (line :: lines) chunk.
Proof. intros [l [Hin H]]. exists l. split; [right; exact Hin | exact H]. Qed.

Lemma collect_chunks_outcome h lines :
  forall chunks w,
    match first_failure h lines with
    | Some e => fst (collect_chunks h lines chunks w) = Raise e
    | None =>
        exists more,
          fst (collect_chunks h lines chunks w) = Return (chunks ++ more) /\
          Forall (decoded_from h lines) more /\
          (List.length more <= List.length lines)%nat
    end.
Proof.
  induction lines as [|line rest IH]; intros chunks w; simpl.
  - exists []. rewrite app_nil_r. split; [reflexivity|].
    split; [apply Forall_nil | simpl; lia].
  - assert (Hskip : forall chunks' w',
      match first_failure h rest with
      | Some e => fst (collect_chunks h rest chunks' w') = Raise e
      | None =>
          exists more,
            fst (collect_chunks h rest chunks' w') = Return (chunks' ++ more) /\
            Forall (decoded_from h (line :: rest)) more /\
            (List.length more <= S (List.length rest))%nat
      end).
    { intros chunks' w'. specialize (IH chunks' w').
      destruct (first_failure h rest); [exact IH|].
      destruct IH as [more [Hr [Hf Hl]]]. exists more. split; [exact Hr|].
      split; [|lia].
      eapply Forall_impl; [|exact Hf]. intros c. apply decoded_from_cons. }
    unfold line_failure.
    destruct (String.eqb (strip line) "") eqn:Hblank; simpl; [apply Hskip|].
    destruct (json_loads h line) as [v | e] eqn:Hj; simpl.
    + assert (Hkeep :
        match first_failure h rest with
        | Some e => fst (collect_chunks h rest (chunks ++ [v]) w) = Raise e
        | None =>
            exists more,
              fst (collect_chunks h rest (chunks ++ [v]) w)
              = Return (chunks ++ more) /\
              Forall (decoded_from h (line :: rest)) more /\
              (List.length more <= S (List.length rest))%nat
        end).
      { specialize (IH (chunks ++ [v]) w).
        destruct (first_failure h rest); [exact IH|].
        destruct IH as [more [Hr [Hf Hl]]]. exists (v :: more).
        split; [rewrite Hr, <- app_assoc; reflexivity|].
        split; [|simpl; lia].
        constructor.
        - exists line. split; [left; reflexivity|]. split; assumption.
        - eapply Forall_impl; [|exact Hf]. intros c. apply decoded_from_cons. }
      unfold bind, py_in, ret, raise.
      destruct v; simpl; try reflexivity.
      * destruct (is_substring "retrievedItem" s); [exact Hkeep | apply Hskip].
      * destruct (list_contains_str "retrievedItem" items);
          [exact Hkeep | apply Hskip].
      * destruct (dict_mem fields "retrievedItem"); [exact Hkeep | apply Hskip].
    + destruct e; first [apply Hskip | reflexivity].
Qed.

Lemma retrieve_memories_status h self query space_ids request_size w resp :
  send h (sent w) (retrieve_request self query space_ids request_size) = inl resp ->
  is_success resp = false ->
  fst (retrieve_memories h self query space_ids request_size w)
  = Raise (HTTPStatusError resp).
Proof.
  intros Hs Hok. unfold retrieve_memories, bind.
  fold (retrieve_request self query space_ids request_size).
  rewrite (http_answered _ _ _ _ Hs). unfold raise_for_status. rewrite Hok.
  reflexivity.
Qed.

(** X7.  On a 2xx answer, retrieval raises exactly when some non-blank
    line of the body fails: it decodes to a JSON scalar (a number, a
    boolean or null), or [json.loads] raises on it something that is not
    [JSONDecodeError] (the [ValueError] of an integer beyond the digit
    limit, say).  What is raised is the failure of the first such line:
    the [TypeError] of the membership test, or the exception of the
    decoder.  On every other body retrieval returns a list. *)
Theorem retrieve_memories_raises_at_first_failure h self query space_ids
    request_size w resp :
  send h (sent w) (retrieve_request self query space_ids request_size) = inl resp ->
  is_success resp = true ->
  let out := fst (retrieve_memories h self query space_ids request_size w) in
  let lines := split_on newline (strip (text resp)) in
  (first_failure h lines = None -> exists chunks, out = Return chunks) /\
  (forall e, out = Raise e <-> first_failure h lines = Some e).
Proof.
  intros Hs Hok out lines. subst out.
  rewrite (retrieve_memories_run _ _ _ _ _ _ _ Hs Hok). fold lines.
  pose proof (collect_chunks_outcome h lines []
                (mkWorld (sent w ++ [retrieve_request self query space_ids
                                       request_size]) (printed w))) as Hc.
  destruct (first_failure h lines) as [e0|].
  - rewrite Hc. split; [discriminate|].
    intros e. split; intros He; injection He as ->; reflexivity.
  - destruct Hc as [more [Hr _]]. rewrite Hr.
    split; [eauto|]. intros e. split; discriminate.
Qed.

Lemma retrieve_memories_raises_at_first_failure_witness :
  fst (retrieve_memories host_digit_limit client0 "query" ["test-space-id"] 5 w0)
  = Raise (ValueError digit_limit_message).
Proof.
  exact (proj2 (proj2
           (retrieve_memories_raises_at_first_failure host_digit_limit client0
              "query" ["test-space-id"] 5 w0 (mkResponse 200 long_integer)
              eq_refl eq_refl)
           (ValueError digit_limit_message)) eq_refl).
Defined.

(** X8.  Whatever the body and the decoder, retrieval invents nothing:
    when it returns, the answer was 2xx, every returned chunk is the
    decoding of a non-blank line of the body, and there are no more chunks
    than lines. *)
Theorem retrieve_memories_chunks_are_lines h self query space_ids request_size w
    resp chunks :
  send h (sent w) (retrieve_request self query space_ids request_size) = inl resp ->
  fst (retrieve_memories h self query space_ids request_size w) = Return chunks ->
  let lines := split_on newline (strip (text resp)) in
  is_success resp = true /\
  Forall (decoded_from h lines) chunks /\
  (List.length chunks <= List.length lines)%nat.
Proof.
  intros Hs Hret lines.
  destruct (is_success resp) eqn:Hok.
  - split; [reflexivity|].
    rewrite (retrieve_memories_run _ _ _ _ _ _ _ Hs Hok) in Hret. fold lines in Hret.
    pose proof (collect_chunks_outcome h lines []
                  (mkWorld (sent w ++ [retrieve_request self query space_ids
                                         request_size]) (printed w))) as Hc.
    destruct (first_failure h lines).
    + rewrite Hc in Hret. discriminate.
    + destruct Hc as [more [Hr [Hf Hl]]]. rewrite Hr in Hret.
      injection Hret as <-. split; assumption.
  - exfalso. rewrite (retrieve_memories_status _ _ _ _ _ _ _ Hs Hok) in Hret.
    discriminate.
Qed.

Lemma retrieve_memories_chunks_are_lines_witness :
  Forall (decoded_from host_mixed_body (split_on newline (strip mixed_body)))
    [ JObj [("retrievedItem", JObj [("chunk", JInt 1)])];
      JObj [("retrievedItem", JObj [("chunk", JInt 1)])] ].
Proof.
  exact (proj1 (proj2
           (retrieve_memories_chunks_are_lines host_mixed_body client0 "query"
              ["test-space-id"] 5 w0 (mkResponse 200 mixed_body)
              [ JObj [("retrievedItem", JObj [("chunk", JInt 1)])];
                JObj [("retrievedItem", JObj [("chunk", JInt 1)])] ]
              eq_refl eq_refl))).
Defined.

(** ** Listing spaces, when the pages do not end well *)

Lemma list_spaces_loop_endless h name :
  always_more h name ->
  forall fuel tok acc w,
    fst (list_spaces_loop h fuel name tok acc w) = OutOfFuel /\
    List.length (sent (snd (list_spaces_loop h fuel name tok acc w)))
    = (List.length (sent w) + fuel)%nat.
Proof.
  intros Hmore. induction fuel as [|fuel IH]; intros tok acc w.
  - simpl. split; [reflexivity | lia].
  - destruct (Hmore (sent w) tok) as [items [next [Hans Htrue]]].
    rewrite (page_step _ _ _ _ _ _ _ _ Hans), Htrue. simpl.
    destruct (IH next (acc ++ items)
                (mkWorld (sent w ++ [page_request name tok]) (printed w)))
      as [Hout Hlen].
    split; [exact Hout|]. rewrite Hlen. simpl. rewrite length_app. simpl. lia.
Qed.

(** X9.  The listing loop has no bound of its own: against a service
    whose every page carries a next token it never returns, however long
    it runs, and it sends one more request at every turn. *)
Theorem list_spaces_never_ends h name fuel w :
  always_more h name ->
  fst (list_spaces h fuel name w) = OutOfFuel /\
  List.length (sent (snd (list_spaces h fuel name w)))
  = (List.length (sent w) + fuel)%nat.
Proof.
  intros Hmore. unfold list_spaces. apply list_spaces_loop_endless. exact Hmore.
Qed.

Lemma host_endless_always_more : always_more host_endless None.
Proof.
  intros hist tok. exists [JObj [("spaceId", JStr "s1")]], (JStr "again").
  split; [|reflexivity].
  exists (mkResponse 200 "page"). eexists. repeat split.
Defined.

Lemma list_spaces_never_ends_witness :
  fst (list_spaces host_endless 25 None w0) = OutOfFuel.
Proof.
  exact (proj1 (list_spaces_never_ends host_endless None 25 w0
                  host_endless_always_more)).
Defined.

Lemma list_spaces_loop_breaks h name hist tok pages last e :
  breaks h name hist tok pages last e ->
  forall acc w fuel,
    sent w = hist ->
    (List.length pages < fuel)%nat ->
    list_spaces_loop h fuel name tok acc w
    = (Raise e,
       mkWorld (sent w ++ page_requests name pages ++ [page_request name last])
               (printed w)).
Proof.
  induction 1 as [hist tok resp Hs Hok | hist tok detail Hs
                 | hist tok items next pages last e Hans Hmore Hrest IH];
    intros acc w fuel Hw Hfuel; subst hist;
    (destruct fuel as [|fuel]; [simpl in Hfuel; lia|]).
  - simpl. unfold bind. rewrite (http_answered _ _ _ _ Hs).
    unfold raise_for_status. rewrite Hok. reflexivity.
  - simpl. unfold bind. rewrite (http_failed _ _ _ _ Hs). reflexivity.
  - rewrite (page_step _ _ _ _ _ _ _ _ Hans), Hmore. simpl.
    rewrite (IH (acc ++ items)
               (mkWorld (sent w ++ [page_request name tok]) (printed w))
               fuel eq_refl) by (simpl in Hfuel; lia).
    simpl. rewrite <- !app_assoc. reflexivity.
Qed.

(** X10.  When a page request fails (transport failure or error status),
    [list_spaces] raises that failure and returns nothing of the pages it
    had already fetched; it has sent one request per fetched page and the
    one that failed. *)
Theorem list_spaces_loses_pages h name w pages last e fuel :
  breaks h name (sent w) JNull pages last e ->
  (List.length pages < fuel)%nat ->
  list_spaces h fuel name w
  = (Raise e,
     mkWorld (sent w ++ page_requests name pages ++ [page_request name last])
             (printed w)).
Proof.
  intros Hb Hfuel. unfold list_spaces.
  apply (list_spaces_loop_breaks _ _ _ _ _ _ _ Hb [] w fuel eq_refl Hfuel).
Qed.

Lemma list_spaces_loses_pages_witness :
  list_spaces host_second_page_fails 5 None w0
  = (Raise (HTTPStatusError (mkResponse 503 "unavailable")),
     mkWorld [page_request None JNull; page_request None (JStr "token123")] []).
Proof.
  refine (list_spaces_loses_pages host_second_page_fails None w0
            [(JNull, [JObj [("spaceId", JStr "s1")]])] (JStr "token123")
            (HTTPStatusError (mkResponse 503 "unavailable")) 5 _ _).
  - eapply breaks_later with (next := JStr "token123").
    + do 2 eexists. repeat split.
    + reflexivity.
    + apply breaks_status; reflexivity.
  - simpl. lia.
Defined.

(** ** Embedder resolution: what does not matter *)

(** X12.  With an explicit embedder id the call depends on the service
    alone: the process environment, the JSON encoder and the debug flag
    change neither its outcome nor its effects; it sends the listing
    request and prints nothing, whatever the listing holds. *)
Theorem explicit_id_ignores_environment sender loads env1 env2 dumps1 dumps2 eid
    debug1 debug2 w :
  ensure_embedder (mkHost sender env1 loads dumps1) (Some eid) debug1 w
  = ensure_embedder (mkHost sender env2 loads dumps2) (Some eid) debug2 w /\
  snd (ensure_embedder (mkHost sender env1 loads dumps1) (Some eid) debug1 w)
  = mkWorld (sent w ++ [list_embedders_request]) (printed w).
Proof.
  split; [reflexivity|].
  rewrite ensure_embedder_explicit_world. apply list_embedders_world.
Qed.

(** *** Agreement up to printing *)

Lemma effect_free_agree {A} (c : M A) : effect_free c -> agree c c.
Proof.
  intros [o Ho] w1 w2 Hs. rewrite (Ho w1), (Ho w2). split; [reflexivity | exact Hs].
Qed.


Lemma agree_bind {A B} (c1 c2 : M A) (k1 k2 : A -> M B) :
  agree c1 c2 -> (forall a, agree (k1 a) (k2 a)) -> agree (bind c1 k1) (bind c2 k2).
Proof.
  intros Hc Hk w1 w2 Hs. unfold bind.
  destruct (Hc w1 w2 Hs) as [Hfst Hsent].
  destruct (c1 w1) as [o1 w1'], (c2 w2) as [o2 w2']; simpl in *. subst o2.
  destruct o1 as [a | e |]; simpl; auto.
  apply Hk. exact Hsent.
Qed.


Lemma agree_http h rq : agree (http h rq) (http h rq).
Proof.
  intros w1 w2 Hs. unfold http. rewrite Hs.
  destruct (send h (sent w2) rq); simpl; auto.
Qed.


Lemma agree_debug_print d1 d2 m1 m2 : agree (debug_print d1 m1) (debug_print d2 m2).
Proof. intros w1 w2 Hs. destruct d1, d2; simpl; auto. Qed.


Lemma effect_free_ret {A} (a : A) : effect_free (ret a).
Proof. exists (Return a). reflexivity. Qed.

Lemma effect_free_raise {A} e : effect_free (@raise A e).
Proof. exists (Raise e). reflexivity. Qed.

Lemma effect_free_py_get v k d : effect_free (py_get v k d).
Proof. destruct v; simpl; first [apply effect_free_ret | apply effect_free_raise]. Qed.

Lemma effect_free_py_first v : effect_free (py_first v).
Proof.
  destruct v as [| | | |[|c r]|[|x l]|]; simpl;
    first [apply effect_free_ret | apply effect_free_raise].
Qed.

Lemma effect_free_raise_for_status r : effect_free (raise_for_status r).
Proof.
  unfold raise_for_status.
  destruct (is_success r); first [apply effect_free_ret | apply effect_free_raise].
Qed.

Lemma effect_free_response_json h r : effect_free (response_json h r).
Proof.
  unfold response_json.
  destruct (json_loads h (text r)); first [apply effect_free_ret | apply effect_free_raise].
Qed.

(** Building agreement and quietness along the structure of a run. *)
Ltac effect_free_step :=
  first [ apply effect_free_ret | apply effect_free_raise
        | apply effect_free_py_get | apply effect_free_py_first
        | apply effect_free_raise_for_status | apply effect_free_response_json ].

Ltac agree_steps :=
  repeat first
    [ apply agree_http
    | apply agree_debug_print
    | apply effect_free_agree; effect_free_step
    | apply agree_bind; [|intros ?]
    | match goal with
      | |- agree (if ?b then _ else _) _ => destruct b
      | |- agree (match ?x with _ => _ end) _ => destruct x
      end ].


Lemma agree_auto_create h d1 d2 :
  agree (_auto_create_google_embedder h d1) (_auto_create_google_embedder h d2).
Proof.
  unfold _auto_create_google_embedder, create_embedder. agree_steps.
Qed.









(** ** Embedder resolution: the remaining cases *)

(** X14.  When a credential is set and the service answers the creation
    request with a 2xx record that carries no usable [embedderId] (none,
    or an empty one), auto-creation raises its own [ValueError]; the
    creation request has been sent all the same. *)
Theorem auto_create_answer_without_id h debug w key resp record :
  credential_is h key ->
  send h (sent w) (create_google_request key) = inl resp ->
  is_success resp = true ->
  json_loads h (text resp) = Decoded (JObj record) ->
  py_truthy (embedder_id_of (JObj record)) = false ->
  _auto_create_google_embedder h debug w
  = (Raise (ValueError
              [Lit "Failed to auto-create Google embedder: no embedderId in response"]),
     mkWorld (sent w ++ [create_google_request key]) (printed w)).
Proof.
  intros Hc Hs Hok Hj Hid. destruct (credential_chosen h key Hc) as [Hkey Hne].
  unfold _auto_create_google_embedder. rewrite Hkey, Hne.
  rewrite create_embedder_google. unfold bind. rewrite (http_answered _ _ _ _ Hs).
  unfold raise_for_status, response_json. rewrite Hok, Hj. simpl.
  simpl in Hid. unfold py_get, ret. simpl.
  destruct (dict_get record "embedderId") as [v|]; simpl in *.
  - rewrite Hid. reflexivity.
  - reflexivity.
Qed.

Lemma auto_create_answer_without_id_witness :
  fst (_auto_create_google_embedder
         (mkHost (scripted [inl (mkResponse 200 "listing")])
                 (env_of [("GEMINI_API_KEY", "test-gemini-key")])
                 (table_loads [("listing", two_embedders)]) no_dumps)
         false w0)
  = Raise (ValueError
             [Lit "Failed to auto-create Google embedder: no embedderId in response"]).
Proof.
  refine (f_equal fst
    (auto_create_answer_without_id
       (mkHost (scripted [inl (mkResponse 200 "listing")])
               (env_of [("GEMINI_API_KEY", "test-gemini-key")])
               (table_loads [("listing", two_embedders)]) no_dumps)
       false w0 "test-gemini-key" (mkResponse 200 "listing") _ _
       eq_refl eq_refl eq_refl eq_refl)).
  right. split; [discriminate|]. split; reflexivity.
Defined.

Lemma falsy_listing_run h debug w listing w1 :
  list_embedders h w = (Return listing, w1) ->
  py_truthy listing = false ->
  exists w2, sent w2 = sent w1 /\
    ensure_embedder h None debug w = _auto_create_google_embedder h debug w2.
Proof.
  intros Hlist Hfalse. unfold ensure_embedder, bind. rewrite Hlist, Hfalse.
  unfold debug_print, print, ret.
  destruct debug; simpl; eexists; (split; [|reflexivity]); reflexivity.
Qed.

(** X15.  Without an explicit id, any listing that is false in Python's
    sense (the empty list that also stands for a missing [embedders]
    field, or [null]) sends the call to auto-creation: outcome and
    requests are those of [_auto_create_google_embedder] run after the
    listing. *)
Theorem falsy_listing_is_no_embedders h debug w listing w1 :
  list_embedders h w = (Return listing, w1) ->
  py_truthy listing = false ->
  fst (ensure_embedder h None debug w)
  = fst (_auto_create_google_embedder h debug w1) /\
  sent (snd (ensure_embedder h None debug w))
  = sent (snd (_auto_create_google_embedder h debug w1)).
Proof.
  intros Hlist Hfalse.
  destruct (falsy_listing_run h debug w listing w1 Hlist Hfalse) as [w2 [Hs ->]].
  apply agree_auto_create. exact Hs.
Qed.

Lemma falsy_listing_is_no_embedders_witness :
  fst (ensure_embedder host_upload None false w0)
  = fst (_auto_create_google_embedder host_upload false
           (mkWorld [list_embedders_request] [])).
Proof.
  exact (proj1 (falsy_listing_is_no_embedders host_upload false w0 (JArr []) _
                  eq_refl eq_refl)).
Defined.

(** The listing, from the answer to its request. *)
Lemma list_embedders_answered h w resp d :
  send h (sent w) list_embedders_request = inl resp ->
  is_success resp = true ->
  json_loads h (text resp) = Decoded (JObj d) ->
  list_embedders h w
  = (Return (match dict_get d "embedders" with Some x => x | None => JArr [] end),
     mkWorld (sent w ++ [list_embedders_request]) (printed w)).
Proof.
  intros Hs Hok Hj. unfold list_embedders, bind.
  rewrite (http_answered _ _ _ _ Hs). unfold raise_for_status, response_json.
  rewrite Hok, Hj. reflexivity.
Qed.

(** The first-wins branch, from the listing. *)
Lemma ensure_embedder_existing h debug w first rest eid w1 :
  list_embedders h w = (Return (JArr (JObj first :: rest)), w1) ->
  dict_get first "embedderId" = Some eid ->
  py_truthy eid = true ->
  fst (ensure_embedder h None debug w) = Return eid /\
  sent (snd (ensure_embedder h None debug w)) = sent w1.
Proof.
  intros Hlist Hid Htrue. unfold ensure_embedder, bind. rewrite Hlist. simpl.
  unfold py_get, ret. rewrite Hid, Htrue. unfold debug_print, print, ret.
  destruct debug; simpl; auto.
Qed.

(** X16.  The test helper [_get_first_embedder_id] and the client agree:
    whenever the helper returns a non-empty id, [ensure_embedder] without
    an explicit id returns that same id, after the same single request. *)
Theorem first_embedder_id_agrees h debug w eid w1 :
  Helpers._get_first_embedder_id h w = (Return eid, w1) ->
  py_truthy eid = true ->
  fst (ensure_embedder h None debug w) = Return eid /\
  sent (snd (ensure_embedder h None debug w)) = sent w1 /\
  sent w1 = sent w ++ [list_embedders_request].
Proof.
  intros Hhelper Htrue.
  pose proof (list_embedders_world h w) as Hw.
  unfold Helpers._get_first_embedder_id, bind in Hhelper.
  unfold ensure_embedder, bind.
  destruct (list_embedders h w) as [[listing | e |] w2]; simpl in *;
    try discriminate.
  destruct (py_truthy listing).
  - destruct (effect_free_py_first listing) as [o1 Ho1].
    rewrite Ho1 in *. destruct o1 as [first | e |]; try discriminate.
    destruct (effect_free_py_get first "embedderId" JNull) as [o2 Ho2].
    rewrite Ho2 in *. destruct o2 as [x | e |]; try discriminate.
    injection Hhelper as -> ->. rewrite Htrue.
    unfold debug_print, print, ret. subst w1.
    destruct debug; simpl; auto.
  - unfold ret in Hhelper. injection Hhelper as <- _. discriminate.
Qed.

Lemma first_embedder_id_agrees_witness :
  fst (ensure_embedder host_two_embedders None true w0) = Return (JStr "first-emb").
Proof.
  exact (proj1 (first_embedder_id_agrees host_two_embedders true w0
                  (JStr "first-emb") _ eq_refl eq_refl)).
Defined.

(** X17.  Auto-creation happens once: when the first call finds no
    embedder and creates one, and the service lists the new embedder from
    then on, a second call returns the same id and sends nothing but its
    listing request. *)
Theorem ensure_embedder_twice h debug w w1 key resp record new_id listed answer
    first rest :
  list_embedders h w = (Return (JArr []), w1) ->
  credential_is h key ->
  send h (sent w1) (create_google_request key) = inl resp ->
  is_success resp = true ->
  json_loads h (text resp) = Decoded (JObj record) ->
  dict_get record "embedderId" = Some new_id ->
  py_truthy new_id = true ->
  send h (sent w1 ++ [create_google_request key]) list_embedders_request
    = inl listed ->
  is_success listed = true ->
  json_loads h (text listed)
    = Decoded (JObj answer) ->
  dict_get answer "embedders" = Some (JArr (JObj first :: rest)) ->
  dict_get first "embedderId" = Some new_id ->
  let twice := (_ <- ensure_embedder h None debug ;; ensure_embedder h None debug) in
  fst (twice w) = Return new_id /\
  sent (snd (twice w))
  = sent w ++ [list_embedders_request; create_google_request key;
               list_embedders_request].
Proof.
  intros Hlist Hc Hs Hok Hj Hid Htrue Hs2 Hok2 Hj2 Hlisted Hfirst_id twice.
  pose proof (list_embedders_world h w) as Hw. rewrite Hlist in Hw. simpl in Hw.
  assert (Hfirst : exists w2,
            ensure_embedder h None debug w = (Return new_id, w2) /\
            sent w2 = sent w1 ++ [create_google_request key]).
  { destruct (falsy_listing_run h debug w (JArr []) w1 Hlist eq_refl)
      as [w1' [Hs1 Hrun]].
    destruct (auto_create_with_credential h debug w1' key Hc) as [Hsent Hret].
    rewrite <- Hs1 in Hs. specialize (Hret resp record new_id Hs Hok Hj Hid Htrue).
    rewrite Hrun.
    destruct (_auto_create_google_embedder h debug w1') as [o w2]; simpl in *.
    exists w2. subst o. split; [reflexivity|]. rewrite Hsent, Hs1. reflexivity. }
  destruct Hfirst as [w2 [Hrun1 Hsent2]].
  assert (Htwice : twice w = ensure_embedder h None debug w2).
  { unfold twice, bind. rewrite Hrun1. reflexivity. }
  rewrite Htwice. rewrite <- Hsent2 in Hs2.
  pose proof (list_embedders_answered h w2 listed answer Hs2 Hok2 Hj2) as Hl2.
  rewrite Hlisted in Hl2.
  destruct (ensure_embedder_existing h debug w2 first rest new_id
              _ Hl2 Hfirst_id Htrue) as [Hf Hsn].
  split; [exact Hf|]. rewrite Hsn. simpl. rewrite Hsent2, Hw. simpl.
  rewrite <- !app_assoc. reflexivity.
Qed.

Lemma ensure_embedder_twice_witness :
  fst ((_ <- ensure_embedder host_learns_embedder None false ;;
        ensure_embedder host_learns_embedder None false) w0)
  = Return (JStr "auto-created-emb").
Proof.
  refine (proj1
    (ensure_embedder_twice host_learns_embedder false w0 _ "test-google-key"
       (mkResponse 200 "created") [("embedderId", JStr "auto-created-emb")]
       (JStr "auto-created-emb") (mkResponse 200 "one")
       [("embedders", JArr [JObj [("embedderId", JStr "auto-created-emb")]])]
       [("embedderId", JStr "auto-created-emb")] []
       eq_refl _ eq_refl eq_refl eq_refl eq_refl eq_refl eq_refl eq_refl eq_refl
       eq_refl eq_refl)).
  left. split; reflexivity.
Defined.

(** *** What a run touches *)

Lemma touches_effect_free {A} P (c : M A) : effect_free c -> touches P c.
Proof.
  intros [o Ho] w. exists []. rewrite (Ho w). simpl. rewrite app_nil_r.
  split; [reflexivity | constructor].
Qed.

Lemma touches_http h P rq : P rq -> touches P (http h rq).
Proof.
  intros Hp w. exists [rq]. rewrite http_sent. simpl.
  split; [reflexivity | constructor; [exact Hp | constructor]].
Qed.

Lemma touches_debug_print P d m : touches P (debug_print d m).
Proof.
  intros w. exists []. rewrite app_nil_r.
  split; [destruct d; reflexivity | constructor].
Qed.

Lemma touches_bind {A B} P (c : M A) (k : A -> M B) :
  touches P c -> (forall a, touches P (k a)) -> touches P (bind c k).
Proof.
  intros Hc Hk w. unfold bind. destruct (Hc w) as [reqs [Hs Hf]].
  destruct (c w) as [[a | e |] w']; simpl in *; try (exists reqs; split; assumption).
  destruct (Hk a w') as [reqs' [Hs' Hf']].
  exists (reqs ++ reqs'). split.
  - rewrite Hs', Hs, app_assoc. reflexivity.
  - apply Forall_app. split; assumption.
Qed.

Lemma effect_free_py_iter v : effect_free (py_iter v).
Proof. destruct v; simpl; first [apply effect_free_ret | apply effect_free_raise]. Qed.

Lemma effect_free_embedder_ids es : effect_free (embedder_ids es).
Proof.
  induction es as [|e es [o Ho]]; simpl; [apply effect_free_ret|].
  destruct (effect_free_py_get e "embedderId" JNull) as [o1 Ho1].
  destruct o1 as [eid | err |].
  - destruct o as [ids | err |].
    + exists (Return (eid :: ids)). intros w. unfold bind. rewrite Ho1, Ho. reflexivity.
    + exists (Raise err). intros w. unfold bind. rewrite Ho1, Ho. reflexivity.
    + exists OutOfFuel. intros w. unfold bind. rewrite Ho1, Ho. reflexivity.
  - exists (Raise err). intros w. unfold bind. rewrite Ho1. reflexivity.
  - exists OutOfFuel. intros w. unfold bind. rewrite Ho1. reflexivity.
Qed.

Ltac touches_steps :=
  repeat first
    [ apply touches_http; reflexivity
    | apply touches_debug_print
    | apply touches_effect_free;
      first [ effect_free_step | apply effect_free_py_iter
            | apply effect_free_embedder_ids ]
    | apply touches_bind; [|intros ?]
    | match goal with
      | |- touches _ (if ?b then _ else _) => destruct b
      | |- touches _ (match ?x with _ => _ end) => destruct x
      end ].

(** X18.  Whatever its arguments and whatever the service answers,
    [ensure_embedder] only talks to the embedders endpoint: every request
    it sends (the listing, and the creation when it comes to that) goes to
    [/v1/embedders]; it never touches spaces or memories. *)
Theorem ensure_embedder_touches_embedders h eid debug :
  touches on_embedders (ensure_embedder h eid debug).
Proof.
  unfold ensure_embedder, list_embedders, _auto_create_google_embedder,
    create_embedder, on_embedders.
  touches_steps.
Qed.

(** ** The helpers that drive the client *)

Lemma create_space_run h space_name embedder_id space_id :
  create_space h space_name embedder_id space_id
  = (response <- http h (create_space_request space_name embedder_id space_id) ;;
     raise_for_status response ;;
     response_json h response).
Proof. reflexivity. Qed.

(** X19.  [_pre_create_space] creates a space only with a resolved
    embedder: when [ensure_embedder] raises, the helper raises the same
    error and sends nothing more; when it returns an id, the helper sends
    one creation request for the space with that id, and returns the
    [spaceId] of the answer, or raises [KeyError] when the answer has
    none. *)
Theorem pre_create_space_follows_embedder h space_name w out w1 :
  ensure_embedder h None false w = (out, w1) ->
  match out with
  | Return eid =>
      sent (snd (Helpers._pre_create_space h space_name w))
      = sent w1 ++ [create_space_request space_name eid None] /\
      forall resp d,
        send h (sent w1) (create_space_request space_name eid None) = inl resp ->
        is_success resp = true ->
        json_loads h (text resp) = Decoded (JObj d) ->
        fst (Helpers._pre_create_space h space_name w)
        = match dict_get d "spaceId" with
          | Some sid => Return sid
          | None => Raise KeyError
          end
  | Raise e => Helpers._pre_create_space h space_name w = (Raise e, w1)
  | OutOfFuel => Helpers._pre_create_space h space_name w = (OutOfFuel, w1)
  end.
Proof.
  intros Hrun. unfold Helpers._pre_create_space, bind. rewrite Hrun.
  destruct out as [eid | e |]; try reflexivity.
  rewrite create_space_run. unfold bind. split.
  - unfold http, raise_for_status, response_json, py_getitem, ret, raise.
    destruct (send h (sent w1) _) as [resp | detail]; simpl; [|reflexivity].
    destruct (is_success resp); simpl; [|reflexivity].
    destruct (json_loads h (text resp)) as [[]|]; simpl; try reflexivity.
    destruct (dict_get fields "spaceId"); reflexivity.
  - intros resp d Hs Hok Hj. rewrite (http_answered _ _ _ _ Hs).
    unfold raise_for_status, response_json. rewrite Hok, Hj. simpl.
    destruct (dict_get d "spaceId"); reflexivity.
Qed.

Lemma pre_create_space_follows_embedder_witness :
  Helpers._pre_create_space host_bare "my_new_space" w0
  = (Raise (ValueError no_credential_message), mkWorld [list_embedders_request] []).
Proof.
  exact (pre_create_space_follows_embedder host_bare "my_new_space" w0
           (Raise (ValueError no_credential_message))
           (mkWorld [list_embedders_request] []) eq_refl).
Defined.

Lemma first_named_records spaces space_name :
  Forall is_record spaces ->
  forall w,
    Helpers.first_named spaces space_name w
    = (Return match find (is_named space_name) spaces with
              | Some space => get_or_null space "spaceId"
              | None => JNull
              end, w).
Proof.
  induction 1 as [|space spaces [d ->] _ IH]; intros w; simpl; [reflexivity|].
  unfold bind, py_get, ret, is_named. simpl.
  destruct (py_eq_str space_name
              match dict_get d "name" with Some x => x | None => JNull end).
  - reflexivity.
  - apply IH.
Qed.

(** X20.  [_find_space_id] trusts the name filter of the service no
    further than it must: over a listing of records it returns the
    [spaceId] of the first record whose name is exactly the name asked
    for, and [None] when no record bears that name, however many records
    the listing holds. *)
Theorem find_space_id_exact_name h fuel space_name w spaces w1 :
  list_spaces h fuel (Some space_name) w = (Return spaces, w1) ->
  Forall is_record spaces ->
  Helpers._find_space_id h fuel space_name w
  = (Return match find (is_named space_name) spaces with
            | Some space => get_or_null space "spaceId"
            | None => JNull
            end, w1).
Proof.
  intros Hlist Hrec. unfold Helpers._find_space_id, bind. rewrite Hlist.
  apply first_named_records. exact Hrec.
Qed.

Lemma find_space_id_exact_name_witness :
  Helpers._find_space_id host_lookalike_spaces 1 "notes" w0
  = (Return (JStr "id-2"), mkWorld [page_request (Some "notes") JNull] []).
Proof.
  refine (find_space_id_exact_name host_lookalike_spaces 1 "notes" w0
            [ JObj [("spaceId", JStr "id-1"); ("name", JStr "notes_old")];
              JObj [("spaceId", JStr "id-2"); ("name", JStr "notes")] ]
            _ eq_refl _).
  repeat constructor; eexists; reflexivity.
Defined.

(** ** Construction *)

Lemma rstrip_char_split ch s :
  ends_with ch (rstrip_char ch s) = false /\
  exists n, s = String.append (rstrip_char ch s) (repeat_char ch n).
Proof.
  induction s as [|c r [IHend [n IHn]]]; simpl.
  - split; [reflexivity|]. exists 0%nat. reflexivity.
  - destruct (rstrip_char ch r) as [|c' r'] eqn:Hr.
    + destruct (Ascii.eqb c ch) eqn:Hc; simpl.
      * split; [reflexivity|]. apply Ascii.eqb_eq in Hc. subst c.
        exists (S n). simpl. simpl in IHn. rewrite <- IHn. reflexivity.
      * rewrite Hc. split; [reflexivity|]. exists n. simpl in IHn.
        rewrite <- IHn. reflexivity.
    + split; [exact IHend|]. exists n. simpl. simpl in IHn. rewrite <- IHn.
      reflexivity.
Qed.

Lemma rstrip_char_idempotent ch s :
  rstrip_char ch (rstrip_char ch s) = rstrip_char ch s.
Proof.
  induction s as [|c r IH]; simpl; [reflexivity|].
  destruct (rstrip_char ch r) as [|c' r'] eqn:Hr.
  - destruct (Ascii.eqb c ch) eqn:Hc; simpl; [reflexivity|]. rewrite Hc. reflexivity.
  - change (rstrip_char ch (String c (String c' r')))
      with (match rstrip_char ch (String c' r') with
            | EmptyString =>
                if Ascii.eqb c ch then EmptyString else String c EmptyString
            | r0 => String c r0
            end).
    rewrite IH. reflexivity.
Qed.

Lemma rstrip_idempotent s : rstrip (rstrip s) = rstrip s.
Proof.
  induction s as [|c r IH]; simpl; [reflexivity|].
  destruct (rstrip r) as [|c' r'] eqn:Hr.
  - destruct (py_isspace c) eqn:Hc; simpl; [reflexivity|]. rewrite Hc. reflexivity.
  - change (rstrip (String c (String c' r')))
      with (match rstrip (String c' r') with
            | EmptyString =>
                if py_isspace c then EmptyString else String c EmptyString
            | r0 => String c r0
            end).
    rewrite IH. reflexivity.
Qed.

Lemma lstrip_starts_clean s : starts_clean (lstrip s) = true.
Proof.
  induction s as [|c r IH]; simpl; [reflexivity|].
  destruct (py_isspace c) eqn:Hc; [exact IH|]. simpl. rewrite Hc. reflexivity.
Qed.

Lemma rstrip_starts_clean s : starts_clean s = true -> starts_clean (rstrip s) = true.
Proof.
  destruct s as [|c r]; simpl; [reflexivity|]. intros Hc.
  apply negb_true_iff in Hc.
  destruct (rstrip r); simpl; rewrite Hc; simpl; try rewrite Hc; reflexivity.
Qed.

Lemma lstrip_clean s : starts_clean s = true -> lstrip s = s.
Proof.
  destruct s as [|c r]; simpl; [reflexivity|]. intros Hc.
  apply negb_true_iff in Hc. rewrite Hc. reflexivity.
Qed.

Lemma strip_idempotent s : strip (strip s) = strip s.
Proof.
  unfold strip.
  rewrite (lstrip_clean (rstrip (lstrip s))).
  - apply rstrip_idempotent.
  - apply rstrip_starts_clean, lstrip_starts_clean.
Qed.

Lemma lstrip_split s :
  exists before,
    s = String.append before (lstrip s) /\ string_forall py_isspace before = true.
Proof.
  induction s as [|c r [before [Heq Hsp]]]; simpl.
  - exists EmptyString. split; reflexivity.
  - destruct (py_isspace c) eqn:Hc.
    + exists (String c before). simpl. rewrite <- Heq, Hc, Hsp.
      split; reflexivity.
    + exists EmptyString. split; reflexivity.
Qed.

Lemma rstrip_split s :
  ends_clean (rstrip s) = true /\
  exists after,
    s = String.append (rstrip s) after /\ string_forall py_isspace after = true.
Proof.
  induction s as [|c r [IHend [after [Heq Hsp]]]]; simpl.
  - split; [reflexivity|]. exists EmptyString. split; reflexivity.
  - destruct (rstrip r) as [|c' r'] eqn:Hr.
    + simpl in Heq. subst after.
      destruct (py_isspace c) eqn:Hc; simpl.
      * split; [reflexivity|]. exists (String c r). simpl. rewrite Hc, Hsp.
        split; reflexivity.
      * rewrite Hc. split; [reflexivity|]. exists r.
        split; [reflexivity | exact Hsp].
    + split; [exact IHend|]. exists after. rewrite Heq at 1.
      split; [reflexivity | exact Hsp].
Qed.

(** X23.  Construction normalises its arguments or fails with the
    exception of [httpx.Client].  When the constructor of the HTTP client
    raises (as it does on a key that is not ASCII), so does [__init__];
    otherwise the stored base URL is the given one without its trailing
    slashes (all of them) and so never ends in a slash; the given key is
    the stored key with whitespace, and only whitespace, before and after
    it, and the stored key neither starts nor ends with whitespace; the
    stored key is the value of the one header, [x-api-key], that the HTTP
    client was built with; constructing again from the stored values gives
    the same client. *)
Theorem init_normalises httpx_Client base_url api_key debug :
  match init httpx_Client base_url api_key debug with
  | inl e =>
      httpx_Client (rstrip_char slash base_url) [("x-api-key", strip api_key)]
      = Some e
  | inr client =>
      httpx_Client (_base_url client) (_headers client) = None /\
      ends_with slash (_base_url client) = false /\
      (exists n,
         base_url = String.append (_base_url client) (repeat_char slash n)) /\
      (exists before after,
         api_key
         = String.append before (String.append (_api_key client) after) /\
         string_forall py_isspace before = true /\
         string_forall py_isspace after = true) /\
      starts_clean (_api_key client) = true /\
      ends_clean (_api_key client) = true /\
      _headers client = [("x-api-key", _api_key client)] /\
      _debug client = debug /\
      init httpx_Client (_base_url client) (_api_key client) debug = inr client
  end.
Proof.
  unfold init.
  destruct (httpx_Client (rstrip_char slash base_url)
              [("x-api-key", strip api_key)]) as [e|] eqn:Hc; [reflexivity|].
  simpl. split; [exact Hc|].
  destruct (rstrip_char_split slash base_url) as [Hend Hsplit].
  split; [exact Hend|]. split; [exact Hsplit|].
  split.
  - destruct (lstrip_split api_key) as [before [Hb Hsb]].
    destruct (rstrip_split (lstrip api_key)) as [_ [after [Ha Hsa]]].
    exists before, after. unfold strip. rewrite <- Ha, <- Hb.
    split; [reflexivity|]. split; assumption.
  - split; [apply rstrip_starts_clean, lstrip_starts_clean|].
    split; [apply (proj1 (rstrip_split (lstrip api_key)))|].
    split; [reflexivity|]. split; [reflexivity|].
    rewrite rstrip_char_idempotent, strip_idempotent, Hc. reflexivity.
Qed.

(** A key with a character outside ASCII makes construction fail: with a
    constructor of the HTTP client that encodes header values as ASCII,
    [__init__] raises [UnicodeEncodeError] and builds no client. *)
Example init_rejects_non_ascii_key :
  init ascii_headers "https://api.goodmem.ai/" non_ascii_key false
  = inl (UnicodeEncodeError "ascii").
Proof. reflexivity. Qed.

(** ** Listing spaces with an empty name *)

Lemma list_spaces_loop_empty_name h fuel :
  forall tok acc w,
    list_spaces_loop h fuel (Some "") tok acc w
    = list_spaces_loop h fuel None tok acc w.
Proof.
  induction fuel as [|fuel IH]; intros tok acc w; simpl; [reflexivity|].
  change (page_request (Some "") tok) with (page_request None tok).
  unfold bind, http, raise_for_status, response_json, py_get, py_iter, ret, raise.
  destruct (send h (sent w) _) as [resp | detail]; simpl; [|reflexivity].
  destruct (is_success resp); simpl; [|reflexivity].
  destruct (json_loads h (text resp)) as [data|]; simpl; [|reflexivity].
  destruct data as [| | | | |items|fields]; simpl; try reflexivity.
  assert (Hnext : forall acc' next w',
    (if negb (py_truthy next) then fun w2 => (Return acc', w2)
     else list_spaces_loop h fuel (Some "") next acc') w'
    = (if negb (py_truthy next) then fun w2 => (Return acc', w2)
       else list_spaces_loop h fuel None next acc') w').
  { intros acc' next w'. destruct (py_truthy next); simpl; [apply IH | reflexivity]. }
  destruct (match dict_get fields "spaces" with
            | Some x => x
            | None => JArr []
            end); simpl; try reflexivity; apply Hnext.
Qed.

(** X24.  An empty name is no filter: [list_spaces] called with the empty
    string sends the requests of, and returns the same as, [list_spaces]
    called without a name, so it lists every space. *)
Theorem empty_name_is_no_filter h fuel w :
  list_spaces h fuel (Some "") w = list_spaces h fuel None w /\
  forall tok, dict_get (page_params (Some "") tok) "nameFilter" = None.
Proof.
  split.
  - unfold list_spaces. apply list_spaces_loop_empty_name.
  - intros tok. apply page_params_no_filter.
Qed.
